(** * task-api: storage layer and request validation

    A shallow embedding of [data/taskStorage.js], [middleware/validation.js],
    [controllers/taskController.js], [middleware/errorHandler.js] and the
    route wiring of [routes/tasks.js], followed by the properties the
    specification states about them.

    Conventions.
    - A JavaScript string is a [string]: the sequence of its code units,
      for code units below 256.  Strings of any 16-bit code units, and what
      the table keeps of them, are the matter of [utf16] and
      [taskStorage16].
    - A value of unknown type (a property of [req.body] or [req.query]) is a
      [jsval]; an absent property is [JUndefined]; a number is taken at
      integer values.
    - The storage object mutates one SQLite table; an operation is a
      function from the table to an outcome and the table afterwards
      (the [Db] monad).  Promises are awaited one after the other, so an
      [await] is a monadic bind.
    - The clock and the random generator are read by the caller and handed
      over as arguments: the clock as a number of milliseconds, the random
      number as the text that [toString(36)] prints for it.
    - The store is one that opens: the two rejections of
      [ensureInitialized] and other failures of the file are outside the
      model, and the properties below speak of what an operation does when
      the store answers. *)

From Stdlib Require Import Bool List String Ascii ZArith NArith Lia.
From Stdlib Require Import Permutation Sorted DecimalString DecimalPos DecimalZ.
Import ListNotations.

Set Warnings "-register-all".

Local Open Scope list_scope.
Local Open Scope string_scope.

(** ** JavaScript values and string primitives *)

Module JS.

Inductive jsval : Type :=
| JUndefined
| JNull
| JBool (b : bool)
| JNum (n : Z)
| JStr (s : string)
| JArr (items : list jsval)
| JObj (fields : list (string * jsval)).

(** [ToBoolean]: what [if (v)], [!v] and [v || d] test. *)
Definition truthy (v : jsval) : bool :=
  match v with
  | JUndefined | JNull => false
  | JBool b => b
  | JNum n => negb (n =? 0)%Z
  | JStr s => negb (s =? "")
  | JArr _ | JObj _ => true
  end.

Definition is_string (v : jsval) : bool :=
  match v with JStr _ => true | _ => false end.

Definition is_undefined (v : jsval) : bool :=
  match v with JUndefined => true | _ => false end.

(** [list.includes(v)] for a list of string literals: strict equality, so
    only a string can be found. *)
Definition includes (l : list string) (v : jsval) : bool :=
  match v with
  | JStr s => existsb (String.eqb s) l
  | _ => false
  end.

(** The white space [String.prototype.trim] removes, below code unit 256:
    TAB, LF, VT, FF, CR, SPACE and NBSP. *)
Definition is_white (c : ascii) : bool :=
  let n := nat_of_ascii c in
  (((9 <=? n) && (n <=? 13)) || (n =? 32) || (n =? 160))%nat.

Fixpoint trimStart (s : string) : string :=
  match s with
  | String c s' => if is_white c then trimStart s' else s
  | EmptyString => EmptyString
  end.

Fixpoint trimEnd (s : string) : string :=
  match s with
  | String c s' =>
      match trimEnd s' with
      | EmptyString => if is_white c then EmptyString else String c EmptyString
      | r => String c r
      end
  | EmptyString => EmptyString
  end.

Definition trim (s : string) : string := trimEnd (trimStart s).

(** [s.replace(/[<>]/g, "")] *)
Fixpoint strip_angle (s : string) : string :=
  match s with
  | String c s' =>
      if (c =? "<")%char || (c =? ">")%char then strip_angle s'
      else String c (strip_angle s')
  | EmptyString => EmptyString
  end.

Fixpoint skip (n : nat) (s : string) : string :=
  match n, s with
  | S n', String _ s' => skip n' s'
  | _, _ => s
  end.

Fixpoint take (n : nat) (s : string) : string :=
  match n, s with
  | S n', String c s' => String c (take n' s')
  | _, _ => EmptyString
  end.

(** [s.substr(start, len)] for [start], [len] >= 0. *)
Definition substr (start len : nat) (s : string) : string :=
  take len (skip start s).

(** [l.join(sep)] *)
Definition join (sep : string) (l : list string) : string :=
  String.concat sep l.

(** [s.includes(sub)] *)
Fixpoint str_includes (sub s : string) : bool :=
  String.prefix sub s ||
  match s with
  | String _ s' => str_includes sub s'
  | EmptyString => false
  end.

Fixpoint forallb_string (p : ascii -> bool) (s : string) : bool :=
  match s with
  | String c s' => p c && forallb_string p s'
  | EmptyString => true
  end.

Definition is_digit (c : ascii) : bool :=
  let n := nat_of_ascii c in ((48 <=? n) && (n <=? 57))%nat.

Definition is_lower (c : ascii) : bool :=
  let n := nat_of_ascii c in ((97 <=? n) && (n <=? 122))%nat.

(** The class [[a-z0-9]]. *)
Definition is_lower_alnum (c : ascii) : bool := is_lower c || is_digit c.

(** Template-literal conversion of an integer Number below 1e21. *)
Definition decimal (z : Z) : string := NilZero.string_of_int (Z.to_int z).

(** [Math.random().toString(36)] reaches the model as the text printed.
    How many digits an engine prints is its own matter (the shortest that
    tell the double from its neighbours, the last one rounded), so that the
    digits are not computed here.  For a double in [[0, 1)] the text is "0"
    when the double is zero, and otherwise "0." followed by one or more
    digits of [[0-9a-z]]: [radix36_text] is that shape. *)
Definition radix36_text (s : string) : bool :=
  (s =? "0")
  || (String.prefix "0." s && negb (skip 2 s =? "")
      && forallb_string is_lower_alnum (skip 2 s)).

Definition digit (d : Z) : ascii := ascii_of_N (48 + Z.to_N d).

(** A field of a timestamp: the last [w] decimal digits of [n >= 0], that
    is a number below [10^w] with zeros on the left. *)
Fixpoint fixed (w : nat) (n : Z) : string :=
  match w with
  | O => EmptyString
  | S w' => fixed w' (n / 10) ++ String (digit (n mod 10)) EmptyString
  end.

(** Year, month and day of the proleptic Gregorian calendar for a day
    number counted from 1970-01-01 (the date part of [MakeDay]'s inverse). *)
Definition civil (days : Z) : Z * Z * Z :=
  let z := (days + 719468)%Z in
  let era := (z / 146097)%Z in
  let doe := (z mod 146097)%Z in
  let yoe := ((doe - doe / 1460 + doe / 36524 - doe / 146096) / 365)%Z in
  let doy := (doe - (365 * yoe + yoe / 4 - yoe / 100))%Z in
  let mp := ((5 * doy + 2) / 153)%Z in
  let d := (doy - (153 * mp + 2) / 5 + 1)%Z in
  let m := (if mp <? 10 then mp + 3 else mp - 9)%Z in
  let y := (yoe + era * 400 + (if m <=? 2 then 1 else 0))%Z in
  (y, m, d).

(** [new Date(ms).toISOString()], that is YYYY-MM-DDTHH:mm:ss.sssZ: four
    year digits from year 0 to 9999, a sign and six digits outside. *)
Definition toISOString (ms : Z) : string :=
  let t := (ms mod 86400000)%Z in
  let '(y, m, d) := civil (ms / 86400000) in
  let year :=
    if ((0 <=? y) && (y <=? 9999))%Z then fixed 4 y
    else (if (y <? 0)%Z then "-" else "+") ++ fixed 6 (Z.abs y) in
  year ++ "-" ++ fixed 2 m ++ "-" ++ fixed 2 d ++ "T"
  ++ fixed 2 (t / 3600000) ++ ":" ++ fixed 2 (t / 60000 mod 60) ++ ":"
  ++ fixed 2 (t / 1000 mod 60) ++ "." ++ fixed 3 (t mod 1000) ++ "Z".

End JS.
Import JS.

(** ** Strings of any code units, and the TEXT of the table

    A JavaScript string is a sequence of 16-bit code units (UTF-16); SQLite
    keeps TEXT as UTF-8.  The [sqlite3] binding converts a string to UTF-8
    when it binds it as a parameter, and converts a TEXT column back when
    it builds the object of a row.  A surrogate code unit that is not half
    of a pair stands for no character and has no UTF-8 form: the conversion
    writes U+FFFD in its place. *)

Module utf16.

(** A string as JavaScript holds it: its code units. *)
Definition text := list N.

(** A [string] of the convention of this file, as code units. *)
Definition of_string (s : string) : text :=
  map N_of_ascii (list_ascii_of_string s).

(** The surrogates: D800 to DBFF come first in a pair, DC00 to DFFF
    second. *)
Definition is_high (u : N) : bool := ((55296 <=? u) && (u <? 56320))%N.
Definition is_low (u : N) : bool := ((56320 <=? u) && (u <? 57344))%N.

(** U+FFFD, written where text cannot be converted. *)
Definition REPLACEMENT : N := 65533%N.

(** Every code unit has 16 bits and every surrogate is half of a pair. *)
Fixpoint well_formed (w : text) : bool :=
  match w with
  | [] => true
  | u :: w' =>
      (u <? 65536)%N &&
      if is_high u then
        match w' with
        | v :: w'' => is_low v && well_formed w''
        | [] => false
        end
      else negb (is_low u) && well_formed w'
  end.

(** The code points of a string; a surrogate without its partner reads as
    U+FFFD. *)
Fixpoint code_points (w : text) : list N :=
  match w with
  | [] => []
  | u :: w' =>
      if is_high u then
        match w' with
        | v :: w'' =>
            if is_low v
            then (65536 + (u - 55296) * 1024 + (v - 56320))%N :: code_points w''
            else REPLACEMENT :: code_points w'
        | [] => [REPLACEMENT]
        end
      else if is_low u then REPLACEMENT :: code_points w'
      else u :: code_points w'
  end.

Definition byte (n : N) : ascii := ascii_of_N n.

(** The one to four bytes of a code point in UTF-8. *)
Definition utf8_of_code_point (c : N) : string :=
  if (c <? 128)%N then String (byte c) ""
  else if (c <? 2048)%N then
    String (byte (192 + c / 64)) (String (byte (128 + c mod 64)) "")
  else if (c <? 65536)%N then
    String (byte (224 + c / 4096))
      (String (byte (128 + c / 64 mod 64)) (String (byte (128 + c mod 64)) ""))
  else
    String (byte (240 + c / 262144))
      (String (byte (128 + c / 4096 mod 64))
         (String (byte (128 + c / 64 mod 64)) (String (byte (128 + c mod 64)) ""))).

Fixpoint utf8_encode (cps : list N) : string :=
  match cps with
  | c :: cps' => utf8_of_code_point c ++ utf8_encode cps'
  | [] => ""
  end.

Definition continuation (a : ascii) : bool :=
  let b := N_of_ascii a in ((128 <=? b) && (b <? 192))%N.

Definition payload (a : ascii) : N := (N_of_ascii a - 128)%N.

(** The code points of UTF-8 bytes; a byte that starts no sequence of
    UTF-8 reads as U+FFFD. *)
Fixpoint utf8_decode (s : string) : list N :=
  match s with
  | EmptyString => []
  | String a s1 =>
      let b0 := N_of_ascii a in
      if (b0 <? 128)%N then b0 :: utf8_decode s1
      else if ((194 <=? b0) && (b0 <? 224))%N then
        match s1 with
        | String b s2 =>
            if continuation b
            then ((b0 - 192) * 64 + payload b)%N :: utf8_decode s2
            else REPLACEMENT :: utf8_decode s1
        | _ => REPLACEMENT :: utf8_decode s1
        end
      else if ((224 <=? b0) && (b0 <? 240))%N then
        match s1 with
        | String b (String c s3) =>
            let cp := ((b0 - 224) * 4096 + payload b * 64 + payload c)%N in
            if continuation b && continuation c && (2048 <=? cp)%N
               && negb ((55296 <=? cp) && (cp <? 57344))%N
            then cp :: utf8_decode s3
            else REPLACEMENT :: utf8_decode s1
        | _ => REPLACEMENT :: utf8_decode s1
        end
      else if ((240 <=? b0) && (b0 <? 245))%N then
        match s1 with
        | String b (String c (String d s4)) =>
            let cp := ((b0 - 240) * 262144 + payload b * 4096
                       + payload c * 64 + payload d)%N in
            if continuation b && continuation c && continuation d
               && (65536 <=? cp)%N && (cp <? 1114112)%N
            then cp :: utf8_decode s4
            else REPLACEMENT :: utf8_decode s1
        | _ => REPLACEMENT :: utf8_decode s1
        end
      else REPLACEMENT :: utf8_decode s1
  end.

(** The code points that have a UTF-8 form: all but the surrogates. *)
Definition scalar (c : N) : Prop :=
  (c < 55296 \/ (57344 <= c /\ c < 1114112))%N.

(** The one or two code units of a code point. *)
Definition utf16_of_code_point (c : N) : text :=
  if (c <? 65536)%N then [c]
  else [(55296 + (c - 65536) / 1024)%N; (56320 + (c - 65536) mod 1024)%N].

Definition utf16_encode (cps : list N) : text :=
  flat_map utf16_of_code_point cps.

(** Text of code units below 128, which is its own UTF-8. *)
Definition is_ascii (s : string) : bool :=
  forallb_string (fun c => (N_of_ascii c <? 128)%N) s.

(** Binding a string as a parameter: the TEXT that reaches the table. *)
Definition toUtf8 (w : text) : string := utf8_encode (code_points w).

(** Reading a TEXT column into the string of a row object. *)
Definition fromUtf8 (s : string) : text := utf16_encode (utf8_decode s).

End utf16.
Import utf16.

(** ** The task record, errors and the storage monad *)

Module Model.

(** The task model of [taskStorage.js]; every column of the table is TEXT. *)
Record Task : Type := mkTask {
  id : string;
  title : string;
  description : string;
  priority : string;
  status : string;
  createdAt : string
}.

(** The rows of table [tasks], oldest insertion first. *)
Definition table := list Task.

(** A thrown [Error] object: its [name] and [message]. *)
Record Error : Type := mkError { name : string; message : string }.

(** [new Error(msg)] *)
Definition new_Error (msg : string) : Error :=
  {| name := "Error"; message := msg |}.

Inductive result (A : Type) : Type :=
| Ok (a : A)
| Throw (e : Error).
Arguments Ok {A} a.
Arguments Throw {A} e.

(** An asynchronous storage operation: it resolves or rejects, and leaves
    the table in some state. *)
Definition Db (A : Type) : Type := table -> result A * table.

Definition ret {A} (a : A) : Db A := fun tbl => (Ok a, tbl).

Definition throw {A} (e : Error) : Db A := fun tbl => (Throw e, tbl).

Definition bind {A B} (m : Db A) (k : A -> Db B) : Db B :=
  fun tbl =>
    match m tbl with
    | (Ok a, tbl') => k a tbl'
    | (Throw e, tbl') => (Throw e, tbl')
    end.

End Model.
Import Model.

Declare Scope db_scope.
Delimit Scope db_scope with db.
Notation "'await' x <- m ;; k" := (bind m (fun x => k))
  (at level 61, x name, m at next level, right associativity) : db_scope.
Notation "m ;;; k" := (bind m (fun _ => k))
  (at level 61, right associativity) : db_scope.

(** ** The store: SQLite on the statements the repository issues

    [sqlite3] is outside the repository.  It is modelled on the statements
    that [taskStorage.js] issues for requests that passed validation: a
    statement text is split into tokens, parsed, and run against the table
    with its bound parameters, one for each place holder.  A violated
    constraint of the schema of [ensureInitialized] rejects and leaves the
    table as it was.

    SQL is much larger than these statements (names in any letter case,
    expressions, a second statement after a semicolon, fewer parameters
    than place holders).  What the engine does there is not modelled:
    [exec] answers [not_modelled] in its place, and no property below rests
    on that answer. *)

Module Sqlite.

Inductive column : Type :=
  Cid | Ctitle | Cdescription | Cpriority | Cstatus | CcreatedAt.

Definition column_of_name (s : string) : option column :=
  if s =? "id" then Some Cid
  else if s =? "title" then Some Ctitle
  else if s =? "description" then Some Cdescription
  else if s =? "priority" then Some Cpriority
  else if s =? "status" then Some Cstatus
  else if s =? "createdAt" then Some CcreatedAt
  else None.

Definition field (c : column) (t : Task) : string :=
  match c with
  | Cid => t.(id)
  | Ctitle => t.(title)
  | Cdescription => t.(description)
  | Cpriority => t.(priority)
  | Cstatus => t.(status)
  | CcreatedAt => t.(createdAt)
  end.

Definition set_field (c : column) (v : string) (t : Task) : Task :=
  match c with
  | Cid => mkTask v t.(title) t.(description) t.(priority) t.(status) t.(createdAt)
  | Ctitle => mkTask t.(id) v t.(description) t.(priority) t.(status) t.(createdAt)
  | Cdescription => mkTask t.(id) t.(title) v t.(priority) t.(status) t.(createdAt)
  | Cpriority => mkTask t.(id) t.(title) t.(description) v t.(status) t.(createdAt)
  | Cstatus => mkTask t.(id) t.(title) t.(description) t.(priority) v t.(createdAt)
  | CcreatedAt => mkTask t.(id) t.(title) t.(description) t.(priority) t.(status) v
  end.

Inductive direction : Type := ASC | DESC.

Inductive statement : Type :=
| Select (conds : list column) (order : option (column * direction))
| Insert (cols : list column) (holes : nat)
| Update (target : column) (conds : list column)
| Delete (conds : list column).

(** *** Tokens *)

Definition is_blank (c : ascii) : bool :=
  let n := nat_of_ascii c in
  ((n =? 32) || (n =? 10) || (n =? 9) || (n =? 13))%nat.

Definition is_punct (c : ascii) : bool :=
  ((c =? "(") || (c =? ")") || (c =? ",") || (c =? "=") || (c =? "?")
   || (c =? "*") || (c =? ";"))%char.

Definition flush (w : string) (k : list string) : list string :=
  match w with EmptyString => k | _ => w :: k end.

Fixpoint tokens_from (w : string) (s : string) : list string :=
  match s with
  | String c s' =>
      if is_blank c then flush w (tokens_from EmptyString s')
      else if is_punct c then
        flush w (String c EmptyString :: tokens_from EmptyString s')
      else tokens_from (w ++ String c EmptyString) s'
  | EmptyString => flush w []
  end.

Definition tokens (sql : string) : list string := tokens_from EmptyString sql.

(** *** Parser *)

(** [c = ? AND c = ? ...]; returns the columns and the tokens left. *)
Fixpoint parse_conds (ts : list string) : option (list column * list string) :=
  match ts with
  | c :: eq :: hole :: rest =>
      if (eq =? "=") && (hole =? "?") then
        match column_of_name c with
        | Some col =>
            match rest with
            | kw :: rest' =>
                if kw =? "AND" then
                  match parse_conds rest' with
                  | Some (cols, more) => Some (col :: cols, more)
                  | None => None
                  end
                else Some ([col], rest)
            | [] => Some ([col], [])
            end
        | None => None
        end
      else None
  | _ => None
  end.

(** An optional [WHERE] clause. *)
Definition parse_where (ts : list string) : option (list column * list string) :=
  match ts with
  | kw :: rest => if kw =? "WHERE" then parse_conds rest else Some ([], ts)
  | [] => Some ([], [])
  end.

(** An optional [ORDER BY column ASC|DESC] clause that ends the statement. *)
Definition parse_order (ts : list string) : option (option (column * direction)) :=
  match ts with
  | [] => Some None
  | [o; b; c; d] =>
      if (o =? "ORDER") && (b =? "BY") then
        match column_of_name c with
        | Some col =>
            if d =? "ASC" then Some (Some (col, ASC))
            else if d =? "DESC" then Some (Some (col, DESC))
            else None
        | None => None
        end
      else None
  | _ => None
  end.

(** [c , c , ... )]; returns the columns and the tokens after the bracket. *)
Fixpoint parse_columns (ts : list string) : option (list column * list string) :=
  match ts with
  | c :: sep :: rest =>
      match column_of_name c with
      | Some col =>
          if sep =? ")" then Some ([col], rest)
          else if sep =? "," then
            match parse_columns rest with
            | Some (cols, more) => Some (col :: cols, more)
            | None => None
            end
          else None
      | None => None
      end
  | _ => None
  end.

(** [? , ? , ... )] up to the end of the statement; returns how many. *)
Fixpoint parse_holes (ts : list string) : option nat :=
  match ts with
  | hole :: sep :: rest =>
      if hole =? "?" then
        if sep =? ")" then match rest with [] => Some 1 | _ => None end
        else if sep =? "," then option_map S (parse_holes rest)
        else None
      else None
  | _ => None
  end.

(** The tokens after the keywords [kws], when [ts] starts with them. *)
Fixpoint starts (kws : list string) (ts : list string) : option (list string) :=
  match kws, ts with
  | [], _ => Some ts
  | k :: kws', t :: ts' => if k =? t then starts kws' ts' else None
  | _ :: _, [] => None
  end.

Definition parse (sql : string) : option statement :=
  let ts := tokens sql in
  match starts ["SELECT"; "*"; "FROM"; "tasks"] ts with
  | Some rest =>
      match parse_where rest with
      | Some (conds, rest') => option_map (Select conds) (parse_order rest')
      | None => None
      end
  | None =>
  match starts ["INSERT"; "INTO"; "tasks"; "("] ts with
  | Some rest =>
      match parse_columns rest with
      | Some (cols, rest') =>
          match starts ["VALUES"; "("] rest' with
          | Some rest'' => option_map (Insert cols) (parse_holes rest'')
          | None => None
          end
      | None => None
      end
  | None =>
  match starts ["UPDATE"; "tasks"; "SET"] ts with
  | Some (c :: eq :: hole :: rest) =>
      if (eq =? "=") && (hole =? "?") then
        match column_of_name c, parse_where rest with
        | Some col, Some (conds, []) => Some (Update col conds)
        | _, _ => None
        end
      else None
  | Some _ => None
  | None =>
  match starts ["DELETE"; "FROM"; "tasks"] ts with
  | Some rest =>
      match parse_where rest with
      | Some (conds, []) => Some (Delete conds)
      | _ => None
      end
  | None => None
  end end end end.

(** *** Execution *)

Definition column_eqb (a b : column) : bool :=
  match a, b with
  | Cid, Cid | Ctitle, Ctitle | Cdescription, Cdescription
  | Cpriority, Cpriority | Cstatus, Cstatus | CcreatedAt, CcreatedAt => true
  | _, _ => false
  end.

(** The CHECK constraints of the schema. *)
Definition check (c : column) (v : string) : bool :=
  match c with
  | Cpriority => existsb (String.eqb v) ["low"; "medium"; "high"]
  | Cstatus => existsb (String.eqb v) ["pending"; "completed"]
  | _ => true
  end.

Definition has_id (i : string) (t : Task) : bool := t.(id) =? i.

(** PRIMARY KEY: no two rows share an id. *)
Fixpoint unique_ids (tbl : table) : bool :=
  match tbl with
  | t :: tbl' => negb (existsb (has_id t.(id)) tbl') && unique_ids tbl'
  | [] => true
  end.

(** A conjunction of [column = ?] against the parameters, in order. *)
Fixpoint matches (conds : list column) (params : list string) (t : Task) : bool :=
  match conds, params with
  | c :: conds', p :: params' => (field c t =? p) && matches conds' params' t
  | _, _ => true
  end.

(** The order of TEXT values under the BINARY collation. *)
Definition le_by (c : column) (d : direction) (a b : Task) : bool :=
  match d with
  | ASC => String.leb (field c a) (field c b)
  | DESC => String.leb (field c b) (field c a)
  end.

Fixpoint insert_sorted (le : Task -> Task -> bool) (x : Task) (l : list Task) : list Task :=
  match l with
  | y :: l' => if le x y then x :: l else y :: insert_sorted le x l'
  | [] => [x]
  end.

(** The sorter; rows that compare equal keep their table order (the engine
    promises no order among them). *)
Definition sort_rows (le : Task -> Task -> bool) (l : list Task) : list Task :=
  fold_right (insert_sorted le) [] l.

Definition order_rows (order : option (column * direction)) (l : list Task) : list Task :=
  match order with
  | Some (c, d) => sort_rows (le_by c d) l
  | None => l
  end.

Definition lookup (c : column) (bs : list (column * string)) : option string :=
  option_map snd (find (fun b => column_eqb (fst b) c) bs).

Definition or_default (d : string) (o : option string) : string :=
  match o with Some v => v | None => d end.

(** The row an INSERT builds: a column left out takes the default of the
    schema.  A statement that leaves out [id], [title] or [createdAt] is
    outside the model. *)
Definition new_row (bs : list (column * string)) : option Task :=
  match lookup Cid bs, lookup Ctitle bs, lookup CcreatedAt bs with
  | Some i, Some t, Some ca =>
      Some (mkTask i t
              (or_default "" (lookup Cdescription bs))
              (or_default "medium" (lookup Cpriority bs))
              (or_default "pending" (lookup Cstatus bs))
              ca)
  | _, _, _ => None
  end.

(** What a statement yields: the rows of a SELECT and [this.changes]. *)
Record outcome : Type := mkOutcome { rows : list Task; changes : nat }.

(** The answer of the model where it does not follow the engine. *)
Definition not_modelled := new_Error "statement outside the model".

(** A violated constraint: [sqlite3] rejects with an [Error] whose message
    is the result code, a colon and the message of SQLite, which names the
    constraint: the column of a key, the expression of a CHECK (older
    versions of SQLite name the table there). *)
Definition check_text (c : column) : string :=
  match c with
  | Cpriority => "priority IN ('low', 'medium', 'high')"
  | Cstatus => "status IN ('pending', 'completed')"
  | _ => ""
  end.

Definition CHECK_failed (c : column) : Error :=
  new_Error ("SQLITE_CONSTRAINT: CHECK constraint failed: " ++ check_text c).

Definition UNIQUE_failed : Error :=
  new_Error "SQLITE_CONSTRAINT: UNIQUE constraint failed: tasks.id".

Definition exec_statement (st : statement) (params : list string) : Db outcome :=
  fun tbl =>
    match st with
    | Select conds order =>
        if (List.length params =? List.length conds)%nat then
          (Ok (mkOutcome (order_rows order (filter (matches conds params) tbl)) 0), tbl)
        else (Throw not_modelled, tbl)
    | Insert cols holes =>
        if ((List.length cols =? holes) && (List.length params =? holes))%nat then
          match new_row (combine cols params) with
          | Some t =>
              if negb (check Cpriority t.(priority))
              then (Throw (CHECK_failed Cpriority), tbl)
              else if negb (check Cstatus t.(status))
              then (Throw (CHECK_failed Cstatus), tbl)
              else if existsb (has_id t.(id)) tbl
              then (Throw UNIQUE_failed, tbl)
              else (Ok (mkOutcome [] 1), (tbl ++ [t])%list)
          | None => (Throw not_modelled, tbl)
          end
        else (Throw not_modelled, tbl)
    | Update target conds =>
        match params with
        | v :: params' =>
            if (List.length params' =? List.length conds)%nat then
              let hit := matches conds params' in
              let tbl' := map (fun t => if hit t then set_field target v t else t) tbl in
              let n := List.length (filter hit tbl) in
              if (n =? 0)%nat then (Ok (mkOutcome [] 0), tbl)
              else if negb (check target v)
              then (Throw (CHECK_failed target), tbl)
              else if column_eqb target Cid && negb (unique_ids tbl')
              then (Throw UNIQUE_failed, tbl)
              else (Ok (mkOutcome [] n), tbl')
            else (Throw not_modelled, tbl)
        | [] => (Throw not_modelled, tbl)
        end
    | Delete conds =>
        if (List.length params =? List.length conds)%nat then
          let hit := matches conds params in
          (Ok (mkOutcome [] (List.length (filter hit tbl))),
           filter (fun t => negb (hit t)) tbl)
        else (Throw not_modelled, tbl)
    end.

Definition exec (sql : string) (params : list string) : Db outcome :=
  match parse sql with
  | Some st => exec_statement st params
  | None => throw not_modelled
  end.

End Sqlite.

(** ** data/taskStorage.js *)

Module Filters.
(** The [filters] object of [getAllTasks]; [None] is an absent property. *)
Record t : Type := mk {
  status : option string;
  priority : option string;
  sortBy : option string
}.
End Filters.

Module TaskData.
(** The [taskData] object of [createTask]. *)
Record t : Type := mk {
  title : string;
  description : option string;
  priority : option string
}.
End TaskData.

(** What the caller reads from the environment for one [createTask]:
    [Date.now()] and the text of [Math.random().toString(36)] for the id,
    [new Date()] for [createdAt]. *)
Record Env : Type := mkEnv { now : Z; random : string; date : Z }.

Module taskStorage.

(** The property when it is truthy: present and not the empty string. *)
Definition truthy_text (o : option string) : option string :=
  match o with
  | Some v => if v =? "" then None else Some v
  | None => None
  end.

(** [o || d] *)
Definition or_else (o : option string) (d : string) : string :=
  match truthy_text o with Some v => v | None => d end.

(** The connection is opened and [CREATE TABLE IF NOT EXISTS] has run: on
    the model the table is always there, empty when it was missing.  The
    two [reject] branches of the source (the file cannot be opened, the
    table cannot be created) are not modelled: an operation of the model
    never fails for want of a store. *)
Definition ensureInitialized : Db unit := ret tt.

(** [{ lastID, changes }]; nothing reads [lastID]. *)
Definition runQuery (sql : string) (params : list string) : Db nat :=
  (ensureInitialized ;;;
   await r <- Sqlite.exec sql params ;;
   ret (Sqlite.changes r))%db.

(** The first row, or [None] for [undefined]. *)
Definition getQuery (sql : string) (params : list string) : Db (option Task) :=
  (ensureInitialized ;;;
   await r <- Sqlite.exec sql params ;;
   ret (hd_error (Sqlite.rows r)))%db.

Definition allQuery (sql : string) (params : list string) : Db (list Task) :=
  (ensureInitialized ;;;
   await r <- Sqlite.exec sql params ;;
   ret (Sqlite.rows r))%db.

(** [random] is [Math.random().toString(36)]. *)
Definition generateId (now : Z) (random : string) : string :=
  "task_" ++ decimal now ++ "_" ++ substr 2 9 random.

Record WhereClause : Type := mkWhere { whereClause : string; params : list string }.

Definition buildWhereClause (filters : Filters.t) : WhereClause :=
  let conditions := [] in
  let params := [] in
  let '(conditions, params) :=
    match truthy_text (Filters.status filters) with
    | Some v => ((conditions ++ ["status = ?"])%list, (params ++ [v])%list)
    | None => (conditions, params)
    end in
  let '(conditions, params) :=
    match truthy_text (Filters.priority filters) with
    | Some v => ((conditions ++ ["priority = ?"])%list, (params ++ [v])%list)
    | None => (conditions, params)
    end in
  {| whereClause :=
       if (0 <? List.length conditions)%nat
       then "WHERE " ++ join " AND " conditions else "";
     params := params |}.

Definition buildOrderByClause (sortBy : option string) : string :=
  match truthy_text sortBy with
  | None => ""
  | Some s =>
      if s =? "createdAt" then "ORDER BY createdAt DESC"
      else "ORDER BY " ++ s ++ " ASC"
  end.

(** The statement text of [getAllTasks]. *)
Definition select_sql (filters : Filters.t) : string :=
  "SELECT * FROM tasks " ++ whereClause (buildWhereClause filters)
  ++ " " ++ buildOrderByClause (Filters.sortBy filters).

Definition getAllTasks (filters : Filters.t) : Db (list Task) :=
  allQuery (select_sql filters) (params (buildWhereClause filters)).

Definition insert_sql : string := "
      INSERT INTO tasks (id, title, description, priority, status, createdAt)
      VALUES (?, ?, ?, ?, ?, ?)
    ".

(** The [newTask] object of [createTask]. *)
Definition newTask (env : Env) (taskData : TaskData.t) : Task :=
  {| id := generateId (now env) (random env);
     title := TaskData.title taskData;
     description := or_else (TaskData.description taskData) "";
     priority := or_else (TaskData.priority taskData) "medium";
     status := "pending";
     createdAt := toISOString (date env) |}.

Definition createTask (env : Env) (taskData : TaskData.t) : Db Task :=
  let newTask := newTask env taskData in
  let params := [newTask.(id); newTask.(title); newTask.(description);
                 newTask.(priority); newTask.(status); newTask.(createdAt)] in
  (runQuery insert_sql params ;;;
   ret newTask)%db.

Definition NotFound : Error := new_Error "Task not found".

Definition getTaskById (taskId : string) : Db Task :=
  (await task <- getQuery "SELECT * FROM tasks WHERE id = ?" [taskId] ;;
   match task with
   | None => throw NotFound
   | Some task => ret task
   end)%db.

Definition updateTaskStatus (taskId : string) (status : jsval) : Db Task :=
  let newStatus := if truthy status then "completed" else "pending" in
  (await changes <- runQuery "UPDATE tasks SET status = ? WHERE id = ?" [newStatus; taskId] ;;
   if (changes =? 0)%nat then throw NotFound
   else getTaskById taskId)%db.

Definition deleteTask (taskId : string) : Db Task :=
  (await task <- getTaskById taskId ;;
   runQuery "DELETE FROM tasks WHERE id = ?" [taskId] ;;;
   ret task)%db.

End taskStorage.

(** ** data/taskStorage.js on strings of any code units

    [createTask] and [getTaskById] once more, for a title, a description
    and a priority that are any JavaScript strings.  The rows of the table
    hold the UTF-8 that SQLite keeps: a parameter is converted when it is
    bound, a column when the object of a row is built. *)

Module taskStorage16.

Record Task : Type := mkTask {
  id : text;
  title : text;
  description : text;
  priority : text;
  status : text;
  createdAt : text
}.

Module TaskData.
(** The [taskData] object of [createTask]. *)
Record t : Type := mk {
  title : text;
  description : option text;
  priority : option text
}.
End TaskData.

(** [o || d]: an absent property and the empty string are falsy. *)
Definition or_else (o : option text) (d : text) : text :=
  match o with
  | Some ((_ :: _) as v) => v
  | _ => d
  end.

(** The [newTask] object of [createTask]. *)
Definition newTask (env : Env) (taskData : TaskData.t) : Task :=
  {| id := of_string (taskStorage.generateId (now env) (random env));
     title := TaskData.title taskData;
     description := or_else (TaskData.description taskData) (of_string "");
     priority := or_else (TaskData.priority taskData) (of_string "medium");
     status := of_string "pending";
     createdAt := of_string (toISOString (date env)) |}.

Definition createTask (env : Env) (taskData : TaskData.t) : Db Task :=
  let newTask := newTask env taskData in
  let params := [newTask.(id); newTask.(title); newTask.(description);
                 newTask.(priority); newTask.(status); newTask.(createdAt)] in
  (taskStorage.runQuery taskStorage.insert_sql (map toUtf8 params) ;;;
   ret newTask)%db.

(** The object that [db.get] builds of a row. *)
Definition row_object (r : Model.Task) : Task :=
  {| id := fromUtf8 r.(Model.id);
     title := fromUtf8 r.(Model.title);
     description := fromUtf8 r.(Model.description);
     priority := fromUtf8 r.(Model.priority);
     status := fromUtf8 r.(Model.status);
     createdAt := fromUtf8 r.(Model.createdAt) |}.

Definition getTaskById (taskId : text) : Db Task :=
  (await task <- taskStorage.getQuery "SELECT * FROM tasks WHERE id = ?" [toUtf8 taskId] ;;
   match task with
   | None => throw taskStorage.NotFound
   | Some task => ret (row_object task)
   end)%db.

End taskStorage16.

(** ** HTTP responses *)

Inductive Payload : Type :=
| OneTask (task : Task)
| TaskList (tasks : list Task).

(** [res.status(code).json(...)]: the success envelope
    [{success: true, data, message, count?}] or the error envelope
    [{success: false, error, message, details}]. *)
Inductive Response : Type :=
| Success (code : nat) (data : Payload) (message : string) (count : option nat)
| Failure (code : nat) (error : string) (message : string) (details : list string).

(** What a middleware does with a request: answer it, or hand the request,
    as it has changed it, to the next handler. *)
Inductive step (Req : Type) : Type :=
| Respond (r : Response)
| Next (req : Req).
Arguments Respond {Req} r.
Arguments Next {Req} req.

Module CreateBody.
(** The properties of [req.body] that the create route reads. *)
Record t : Type := mk { title : jsval; description : jsval; priority : jsval }.
End CreateBody.

Module Query.
(** The properties of [req.query] that the list route reads. *)
Record t : Type := mk { status : jsval; priority : jsval; sortBy : jsval }.
End Query.

(** ** middleware/validation.js *)

Module validation.

Definition VALID_PRIORITIES : list string := ["low"; "medium"; "high"].
Definition VALID_STATUSES : list string := ["pending"; "completed"].

Definition sanitizeString (str : jsval) : jsval :=
  match str with
  | JStr s => JStr (strip_angle (trim s))
  | _ => str
  end.

(** Leading characters of [s] in the class [p], and the rest. *)
Fixpoint span (p : ascii -> bool) (s : string) : string * string :=
  match s with
  | String c s' =>
      if p c then let '(a, b) := span p s' in (String c a, b)
      else (EmptyString, s)
  | EmptyString => (EmptyString, EmptyString)
  end.

Definition strip_prefix (pre s : string) : option string :=
  if String.prefix pre s then Some (skip (String.length pre) s) else None.

(** [/^task_\d+_[a-z0-9]+$/.test(s)]: no digit is an underscore, so the
    greedy run of digits is the only way to match [\d+_]. *)
Definition id_pattern (s : string) : bool :=
  match strip_prefix "task_" s with
  | Some r =>
      let '(digits, rest) := span is_digit r in
      negb (digits =? "") &&
      match rest with
      | String c suffix =>
          (c =? "_")%char && negb (suffix =? "")
          && forallb_string is_lower_alnum suffix
      | EmptyString => false
      end
  | None => false
  end.

Definition isValidId (id : jsval) : bool :=
  match id with
  | JStr s => (0 <? String.length s)%nat && id_pattern s
  | _ => false
  end.

(** [v.length] of a string, [v.trim().length] of a string; they are only
    evaluated on strings. *)
Definition str_length (v : jsval) : nat :=
  match v with JStr s => String.length s | _ => 0 end.

Definition trim_length (v : jsval) : nat :=
  match v with JStr s => String.length (trim s) | _ => 0 end.

Definition TITLE_REQUIRED := "Title is required and must be a non-empty string".
Definition TITLE_TOO_LONG := "Title must not exceed 200 characters".
Definition DESCRIPTION_NOT_STRING := "Description must be a string".
Definition DESCRIPTION_TOO_LONG := "Description must not exceed 1000 characters".
Definition PRIORITY_INVALID :=
  "Priority must be one of: " ++ join ", " VALID_PRIORITIES.

Definition bad_request (message : string) (details : list string) : Response :=
  Failure 400 "Validation Error" message details.

(** The [errors] array of [validateCreateTask] when the checks are done. *)
Definition createTask_errors (body : CreateBody.t) : list string :=
  let title := CreateBody.title body in
  let description := CreateBody.description body in
  let priority := CreateBody.priority body in
  let errors : list string := [] in
  let errors :=
    if negb (truthy title) || negb (is_string title) || (trim_length title =? 0)%nat
    then (errors ++ [TITLE_REQUIRED])%list
    else if (200 <? trim_length title)%nat
    then (errors ++ [TITLE_TOO_LONG])%list
    else errors in
  let errors :=
    if negb (is_undefined description) then
      if negb (is_string description)
      then (errors ++ [DESCRIPTION_NOT_STRING])%list
      else if (1000 <? str_length description)%nat
      then (errors ++ [DESCRIPTION_TOO_LONG])%list
      else errors
    else errors in
  let errors :=
    if negb (is_undefined priority) then
      if negb (includes VALID_PRIORITIES priority)
      then (errors ++ [PRIORITY_INVALID])%list
      else errors
    else errors in
  errors.

Definition validateCreateTask (body : CreateBody.t) : step CreateBody.t :=
  let errors := createTask_errors body in
  if (0 <? List.length errors)%nat then
    Respond (bad_request "Invalid input data" errors)
  else
    let title := sanitizeString (CreateBody.title body) in
    let description :=
      if truthy (CreateBody.description body)
      then sanitizeString (CreateBody.description body)
      else CreateBody.description body in
    Next (CreateBody.mk title description (CreateBody.priority body)).

Definition validateTaskId (id : jsval) : step jsval :=
  if negb (isValidId id) then
    Respond (bad_request "Invalid task ID format"
               ["Task ID must be in the correct format"])
  else Next id.

Definition validSortFields : list string :=
  ["title"; "priority"; "status"; "createdAt"].

Definition STATUS_FILTER_INVALID :=
  "Status filter must be one of: " ++ join ", " VALID_STATUSES.
Definition PRIORITY_FILTER_INVALID :=
  "Priority filter must be one of: " ++ join ", " VALID_PRIORITIES.
Definition SORT_FIELD_INVALID :=
  "Sort field must be one of: " ++ join ", " validSortFields.

(** The [errors] array of [validateQueryParams]. *)
Definition query_errors (query : Query.t) : list string :=
  let status := Query.status query in
  let priority := Query.priority query in
  let sortBy := Query.sortBy query in
  let errors : list string := [] in
  let errors :=
    if truthy status && negb (includes VALID_STATUSES status)
    then (errors ++ [STATUS_FILTER_INVALID])%list
    else errors in
  let errors :=
    if truthy priority && negb (includes VALID_PRIORITIES priority)
    then (errors ++ [PRIORITY_FILTER_INVALID])%list
    else errors in
  let errors :=
    if truthy sortBy && negb (includes validSortFields sortBy)
    then (errors ++ [SORT_FIELD_INVALID])%list
    else errors in
  errors.

Definition validateQueryParams (query : Query.t) : step Query.t :=
  let errors := query_errors query in
  if (0 <? List.length errors)%nat then
    Respond (bad_request "Invalid query parameters" errors)
  else Next query.

Definition is_nullish (v : jsval) : bool :=
  match v with JUndefined | JNull => true | _ => false end.

Definition is_boolean (v : jsval) : bool :=
  match v with JBool _ => true | _ => false end.

(** [v === s] for a string literal [s]. *)
Definition is_literal (s : string) (v : jsval) : bool :=
  match v with JStr x => x =? s | _ => false end.

Definition INVALID_ID := "Invalid task ID format".
Definition STATUS_REQUIRED := "Status is required".
Definition STATUS_INVALID :=
  "Status must be a boolean or one of: pending, completed".

(** The [errors] array of [validateUpdateTaskStatus] and [req.body.status]
    when the checks are done. *)
Definition updateTaskStatus_checks (id status : jsval) : list string * jsval :=
  let errors : list string := [] in
  let errors :=
    if negb (isValidId id) then (errors ++ [INVALID_ID])%list else errors in
  if is_nullish status then ((errors ++ [STATUS_REQUIRED])%list, status)
  else if is_boolean status then (errors, status)
  else if is_string status && includes VALID_STATUSES status
  then (errors, JBool (is_literal "completed" status))
  else ((errors ++ [STATUS_INVALID])%list, status).

(** [req.params.id] and [req.body.status] come in; the status goes on. *)
Definition validateUpdateTaskStatus (id status : jsval) : step jsval :=
  let '(errors, status') := updateTaskStatus_checks id status in
  if (0 <? List.length errors)%nat then
    Respond (bad_request "Invalid input data" errors)
  else Next status'.

End validation.

(** ** middleware/errorHandler.js *)

Module errorHandler.

(** The response of [errorHandler(err, ...)].  No error of the repository
    carries [details], so that [err.details || [err.message]] is
    [[err.message]]; the [stack] property added in development mode is
    left out. *)
Definition errorHandler (err : Error) : Response :=
  if err.(message) =? "Task not found" then
    Failure 404 "Not Found" "The requested task could not be found" [err.(message)]
  else if str_includes "Failed to load tasks" err.(message)
          || str_includes "Failed to save tasks" err.(message) then
    Failure 500 "Storage Error" "Database operation failed"
      ["Unable to access task storage"]
  else if err.(name) =? "ValidationError" then
    Failure 400 "Validation Error" "Invalid input data" [err.(message)]
  else if (err.(name) =? "SyntaxError") && str_includes "JSON" err.(message) then
    Failure 400 "Bad Request" "Invalid JSON format"
      ["Request body contains invalid JSON"]
  else
    Failure 500 "Internal Server Error" "Something went wrong on the server" [].

End errorHandler.

(** ** controllers/taskController.js

    The storage layer is modelled on text values: a controller is defined
    ([Some]) on the requests whose values are of the types that the
    validators let through, and [None] elsewhere. *)

Module taskController.

(** A property copied when truthy: [if (v) filters.p = v]. *)
Definition copy_if_truthy (v : jsval) : option (option string) :=
  if truthy v then
    match v with JStr s => Some (Some s) | _ => None end
  else Some None.

(** A property passed on as it is: a string or [undefined]. *)
Definition pass (v : jsval) : option (option string) :=
  match v with
  | JStr s => Some (Some s)
  | JUndefined => Some None
  | _ => None
  end.

Definition filters_of (query : Query.t) : option Filters.t :=
  match copy_if_truthy (Query.status query),
        copy_if_truthy (Query.priority query),
        copy_if_truthy (Query.sortBy query) with
  | Some st, Some pr, Some so => Some (Filters.mk st pr so)
  | _, _, _ => None
  end.

Definition taskData_of (body : CreateBody.t) : option TaskData.t :=
  match CreateBody.title body, pass (CreateBody.description body),
        pass (CreateBody.priority body) with
  | JStr title, Some description, Some priority =>
      Some (TaskData.mk title description priority)
  | _, _, _ => None
  end.

(** [next(error)] reaches the global error handler of [app.js]. *)
Definition next (e : Error) : Response := errorHandler.errorHandler e.

Definition not_found (id : string) : Response :=
  Failure 404 "Not Found" "Task not found"
    ["Task with ID " ++ id ++ " does not exist"].

(** [try { r = await m; respond } catch (error) { handle }] *)
Definition try_catch {A} (m : Db A) (respond : A -> Response)
    (handle : Error -> Response) : table -> Response * table :=
  fun tbl =>
    match m tbl with
    | (Ok a, tbl') => (respond a, tbl')
    | (Throw e, tbl') => (handle e, tbl')
    end.

Definition getAllTasks (query : Query.t) : option (table -> Response * table) :=
  match filters_of query with
  | Some filters =>
      Some (try_catch (taskStorage.getAllTasks filters)
              (fun tasks =>
                 Success 200 (TaskList tasks)
                   ("Retrieved " ++ decimal (Z.of_nat (List.length tasks)) ++ " task(s)")
                   (Some (List.length tasks)))
              next)
  | None => None
  end.

Definition createTask (env : Env) (body : CreateBody.t)
  : option (table -> Response * table) :=
  match taskData_of body with
  | Some taskData =>
      Some (try_catch (taskStorage.createTask env taskData)
              (fun newTask =>
                 Success 201 (OneTask newTask) "Task created successfully" None)
              next)
  | None => None
  end.

Definition on_error (id : string) (error : Error) : Response :=
  if error.(message) =? "Task not found" then not_found id else next error.

Definition updateTaskStatus (id : string) (status : jsval) : table -> Response * table :=
  try_catch (taskStorage.updateTaskStatus id status)
    (fun updatedTask =>
       Success 200 (OneTask updatedTask) "Task status updated successfully" None)
    (on_error id).

Definition deleteTask (id : string) : table -> Response * table :=
  try_catch (taskStorage.deleteTask id)
    (fun deletedTask =>
       Success 200 (OneTask deletedTask) "Task deleted successfully" None)
    (on_error id).

Definition getTaskById (id : string) : table -> Response * table :=
  try_catch (taskStorage.getTaskById id)
    (fun task => Success 200 (OneTask task) "Task retrieved successfully" None)
    (on_error id).

End taskController.

(** ** routes/tasks.js: a validator, then its controller *)

Module routes.

(** [router.get("/", validateQueryParams, getAllTasks)] *)
Definition GET_tasks (query : Query.t) : option (table -> Response * table) :=
  match validation.validateQueryParams query with
  | Respond r => Some (fun tbl => (r, tbl))
  | Next query' => taskController.getAllTasks query'
  end.

(** [router.post("/", validateCreateTask, createTask)] *)
Definition POST_tasks (env : Env) (body : CreateBody.t)
  : option (table -> Response * table) :=
  match validation.validateCreateTask body with
  | Respond r => Some (fun tbl => (r, tbl))
  | Next body' => taskController.createTask env body'
  end.

(** [router.get("/:id", validateTaskId, getTaskById)] *)
Definition GET_task (id : string) : table -> Response * table :=
  match validation.validateTaskId (JStr id) with
  | Respond r => fun tbl => (r, tbl)
  | Next _ => taskController.getTaskById id
  end.

(** [router.delete("/:id", validateTaskId, deleteTask)] *)
Definition DELETE_task (id : string) : table -> Response * table :=
  match validation.validateTaskId (JStr id) with
  | Respond r => fun tbl => (r, tbl)
  | Next _ => taskController.deleteTask id
  end.

(** [router.put("/:id/status", validateUpdateTaskStatus, updateTaskStatus)] *)
Definition PUT_task_status (id : string) (status : jsval) : table -> Response * table :=
  match validation.validateUpdateTaskStatus (JStr id) status with
  | Respond r => fun tbl => (r, tbl)
  | Next status' => taskController.updateTaskStatus id status'
  end.

End routes.

(** ** Vocabulary of the specification *)

Module spec.

(** A create input the storage layer is meant for: the priority, when
    given, is one of the enum (title and description are free text). *)
Definition valid_taskData (d : TaskData.t) : bool :=
  match TaskData.priority d with
  | Some p => existsb (String.eqb p) validation.VALID_PRIORITIES
  | None => true
  end.

(** The same for a create input of any strings. *)
Definition valid_taskData16 (d : taskStorage16.TaskData.t) : Prop :=
  match taskStorage16.TaskData.priority d with
  | Some p => In p (map of_string validation.VALID_PRIORITIES)
  | None => True
  end.

(** A create input whose title and description hold no surrogate without
    its partner. *)
Definition paired_surrogates (d : taskStorage16.TaskData.t) : Prop :=
  well_formed (taskStorage16.TaskData.title d) = true
  /\ match taskStorage16.TaskData.description d with
     | Some s => well_formed s = true
     | None => True
     end.

(** A filter on one field: absent, or an equality with the value given. *)
Definition wanted (o : option string) (v : string) : bool :=
  match o with
  | Some x => v =? x
  | None => true
  end.

(** The tasks a status and a priority filter select together. *)
Definition selected (st pr : option string) (t : Task) : bool :=
  wanted st t.(status) && wanted pr t.(priority).

(** A filter that is present carries a value. *)
Definition proper (o : option string) : Prop := o <> Some "".

(** No [sortBy], or one of the recognized sort fields. *)
Definition recognized (so : option string) : Prop :=
  so = None \/ exists c, so = Some c /\ In c validation.validSortFields.

(** The order the specification gives for a sort field. *)
Definition order_of (so : option string) : option (Sqlite.column * Sqlite.direction) :=
  match so with
  | Some c =>
      if c =? "createdAt" then Some (Sqlite.CcreatedAt, Sqlite.DESC)
      else option_map (fun col => (col, Sqlite.ASC)) (Sqlite.column_of_name c)
  | None => None
  end.

(** Dates as year, month and day: the earlier one. *)
Definition lex3 (a b : Z * Z * Z) : Prop :=
  let '(y1, m1, d1) := a in let '(y2, m2, d2) := b in
  (y1 < y2 \/ (y1 = y2 /\ (m1 < m2 \/ (m1 = m2 /\ d1 < d2))))%Z.

(** Clock readings, in milliseconds, from year 0 to year 9999. *)
Definition four_digit_year (ms : Z) : Prop :=
  (-62167219200000 <= ms < 253402300800000)%Z.

(** [a] may come before [b] when the newest come first. *)
Definition newest_first (a b : Task) : Prop :=
  String.leb b.(createdAt) a.(createdAt) = true.

(** [a] may come before [b] in ascending order of [key]. *)
Definition ascending (key : Task -> string) (a b : Task) : Prop :=
  String.leb (key a) (key b) = true.

End spec.

Module rules.

(** The rules of create validation, as the specification words them. *)

(** Title required: a string that is not blank. *)
Definition title_missing (b : CreateBody.t) : bool :=
  match CreateBody.title b with
  | JStr s => trim s =? ""
  | _ => true
  end.

(** Title at most 200 characters after trimming. *)
Definition title_too_long (b : CreateBody.t) : bool :=
  match CreateBody.title b with
  | JStr s => (200 <? String.length (trim s))%nat
  | _ => false
  end.

(** Description, if present, of string type. *)
Definition description_not_string (b : CreateBody.t) : bool :=
  match CreateBody.description b with
  | JUndefined | JStr _ => false
  | _ => true
  end.

(** Description at most 1000 characters. *)
Definition description_too_long (b : CreateBody.t) : bool :=
  match CreateBody.description b with
  | JStr s => (1000 <? String.length s)%nat
  | _ => false
  end.

(** Priority, if present, one of the three enum values. *)
Definition priority_invalid (b : CreateBody.t) : bool :=
  match CreateBody.priority b with
  | JUndefined => false
  | JStr p => negb (existsb (String.eqb p) ["low"; "medium"; "high"])
  | _ => true
  end.

Definition violated (b : CreateBody.t) : bool :=
  title_missing b || title_too_long b || description_not_string b
  || description_too_long b || priority_invalid b.

End rules.

Module sql.

(** The texts the list statement is put together from. *)
Definition WHERE_CLAUSES : list string :=
  [""; "WHERE status = ?"; "WHERE priority = ?";
   "WHERE status = ? AND priority = ?"].

Definition ORDER_CLAUSES : list string :=
  [""; "ORDER BY createdAt DESC"; "ORDER BY title ASC";
   "ORDER BY priority ASC"; "ORDER BY status ASC"].

(** The values of the filters that are present, status first. *)
Definition bound_values (f : Filters.t) : list string :=
  (match taskStorage.truthy_text (Filters.status f) with
   | Some v => [v] | None => [] end
   ++ match taskStorage.truthy_text (Filters.priority f) with
      | Some v => [v] | None => [] end)%list.

(** The statements an operation hands to the engine.  [uses P m]: the
    operation [m] is put together from [ret], [throw] and [await], and
    every statement in it reaches the engine as a text and a list of bound
    parameters that meet [P]. *)
Inductive uses (P : string -> list string -> Prop) : forall A : Type, Db A -> Prop :=
| uses_ret (A : Type) (a : A) : uses P A (ret a)
| uses_throw (A : Type) (e : Error) : uses P A (throw e)
| uses_exec (text : string) (ps : list string) :
    P text ps -> uses P Sqlite.outcome (Sqlite.exec text ps)
| uses_bind (A B : Type) (m : Db A) (k : A -> Db B) :
    uses P A m -> (forall a, uses P B (k a)) -> uses P B (bind m k).

Arguments uses P {A} _.

(** The place holders of a statement text. *)
Definition holes (text : string) : nat :=
  count_occ string_dec (Sqlite.tokens text) "?".

End sql.

Module props.

(** A query parameter that validation lets through: falsy, or a string of
    the list. *)
Definition acceptable (l : list string) (v : jsval) : Prop :=
  truthy v = false \/ exists s, v = JStr s /\ In s l.

(** A text without angle brackets. *)
Definition no_angle (s : string) : bool :=
  forallb_string (fun c => negb ((c =? "<")%char || (c =? ">")%char)) s.

(** The CHECK constraints of the table on a row. *)
Definition checked (t : Task) : bool :=
  existsb (String.eqb t.(priority)) ["low"; "medium"; "high"]
  && existsb (String.eqb t.(status)) ["pending"; "completed"].

(** The status a request names: a boolean, or the name of a status. *)
Definition names_status (v : jsval) (b : bool) : Prop :=
  v = JBool b \/ (v = JStr "completed" /\ b = true)
  \/ (v = JStr "pending" /\ b = false).

(** A row with another status. *)
Definition with_status (t : Task) (s : string) : Task :=
  mkTask t.(id) t.(title) t.(description) t.(priority) s t.(createdAt).

(** A create input and a task of the convention of this file, as strings
    of code units. *)
Definition widen_taskData (d : TaskData.t) : taskStorage16.TaskData.t :=
  taskStorage16.TaskData.mk (of_string (TaskData.title d))
    (option_map of_string (TaskData.description d))
    (option_map of_string (TaskData.priority d)).

Definition widen_task (t : Task) : taskStorage16.Task :=
  taskStorage16.mkTask (of_string t.(id)) (of_string t.(title))
    (of_string t.(description)) (of_string t.(priority))
    (of_string t.(status)) (of_string t.(createdAt)).

Definition widen_result (r : result Task * table) : result taskStorage16.Task * table :=
  match r with
  | (Ok t, tbl) => (Ok (widen_task t), tbl)
  | (Throw e, tbl) => (Throw e, tbl)
  end.

Definition ascii_option (o : option string) : bool :=
  match o with Some s => is_ascii s | None => true end.

Definition ascii_task (t : Task) : bool :=
  is_ascii t.(id) && is_ascii t.(title) && is_ascii t.(description)
  && is_ascii t.(priority) && is_ascii t.(status) && is_ascii t.(createdAt).

End props.

(** * Properties *)

Import Sqlite taskStorage.

(** ** The statements of the storage layer parse as intended *)

Lemma parse_select_by_id :
  parse "SELECT * FROM tasks WHERE id = ?" = Some (Select [Cid] None).
Proof. vm_compute. reflexivity. Qed.

Lemma parse_insert :
  parse insert_sql
  = Some (Insert [Cid; Ctitle; Cdescription; Cpriority; Cstatus; CcreatedAt] 6).
Proof. vm_compute. reflexivity. Qed.

Lemma parse_update_status :
  parse "UPDATE tasks SET status = ? WHERE id = ?" = Some (Update Cstatus [Cid]).
Proof. vm_compute. reflexivity. Qed.

Lemma parse_delete_by_id :
  parse "DELETE FROM tasks WHERE id = ?" = Some (Delete [Cid]).
Proof. vm_compute. reflexivity. Qed.

(** ** Lists of rows *)

Lemma hd_error_filter {A} (p : A -> bool) (l : list A) :
  hd_error (filter p l) = find p l.
Proof.
  induction l as [|x l IH]; simpl; [reflexivity|].
  destruct (p x); simpl; auto.
Qed.

Lemma matches_id (i : string) (t : Task) : matches [Cid] [i] t = has_id i t.
Proof. unfold has_id. simpl. apply andb_true_r. Qed.

Lemma filter_matches_id (i : string) (tbl : table) :
  filter (matches [Cid] [i]) tbl = filter (has_id i) tbl.
Proof. apply filter_ext. intro t. apply matches_id. Qed.

Lemma find_none_existsb {A} (p : A -> bool) (l : list A) :
  existsb p l = false -> find p l = None.
Proof.
  induction l as [|x l IH]; simpl; [reflexivity|].
  destruct (p x); simpl; [discriminate|exact IH].
Qed.

Lemma has_id_own (t : Task) : has_id t.(id) t = true.
Proof. unfold has_id. apply String.eqb_refl. Qed.

(** Under the primary key, looking a stored row up by its id finds it. *)
Lemma find_stored (tbl : table) (t : Task) :
  unique_ids tbl = true -> In t tbl -> find (has_id t.(id)) tbl = Some t.
Proof.
  induction tbl as [|r tbl IH]; simpl; [contradiction|].
  intros U [->|Hin].
  - rewrite has_id_own. reflexivity.
  - apply andb_true_iff in U. destruct U as [Hr U].
    destruct (has_id (id t) r) eqn:E.
    + exfalso. unfold has_id in E. apply String.eqb_eq in E.
      apply negb_true_iff in Hr.
      assert (existsb (has_id (id r)) tbl = true) as X.
      { apply existsb_exists. exists t. split; [exact Hin|].
        unfold has_id. rewrite E. apply String.eqb_refl. }
      congruence.
    + apply IH; assumption.
Qed.

Lemma find_after_delete (i : string) (tbl : table) :
  find (has_id i) (filter (fun t => negb (has_id i t)) tbl) = None.
Proof.
  induction tbl as [|r tbl IH]; simpl; [reflexivity|].
  destruct (has_id i r) eqn:E; simpl; [exact IH|].
  rewrite E. exact IH.
Qed.

(** ** The storage operations, statement by statement *)

Lemma getTaskById_find (i : string) (tbl : table) :
  getTaskById i tbl =
  (match find (has_id i) tbl with
   | Some t => Ok t
   | None => Throw NotFound
   end, tbl).
Proof.
  unfold getTaskById, getQuery, bind, ensureInitialized, ret, exec.
  rewrite parse_select_by_id. cbn [exec_statement List.length Nat.eqb order_rows rows].
  rewrite filter_matches_id, hd_error_filter.
  destruct (find (has_id i) tbl); reflexivity.
Qed.

(** The INSERT of [createTask] on any six values: the CHECK constraints,
    then the primary key, then the row is appended. *)
Lemma insert_row (i t d p s c : string) (tbl : table) :
  runQuery insert_sql [i; t; d; p; s; c] tbl =
  if negb (check Cpriority p) then (Throw (CHECK_failed Cpriority), tbl)
  else if negb (check Cstatus s) then (Throw (CHECK_failed Cstatus), tbl)
  else if existsb (has_id i) tbl then (Throw UNIQUE_failed, tbl)
  else (Ok 1, (tbl ++ [mkTask i t d p s c])%list).
Proof.
  unfold runQuery, bind, ensureInitialized, ret, exec.
  rewrite parse_insert.
  cbn [exec_statement List.length Nat.eqb andb combine new_row lookup find
       column_eqb fst snd option_map or_default].
  cbn [id title description priority status createdAt].
  destruct (negb (check Cpriority p)); [reflexivity|].
  destruct (negb (check Cstatus s)); [reflexivity|].
  destruct (existsb (has_id i) tbl); reflexivity.
Qed.

Lemma createTask_insert (env : Env) (d : TaskData.t) (tbl : table) :
  createTask env d tbl =
  let t := newTask env d in
  if check Cpriority t.(priority) && negb (existsb (has_id t.(id)) tbl)
  then (Ok t, (tbl ++ [t])%list)
  else (Throw (if check Cpriority t.(priority) then UNIQUE_failed
               else CHECK_failed Cpriority), tbl).
Proof.
  unfold createTask. cbv zeta. unfold bind at 1. rewrite insert_row.
  cbn [newTask id title description priority status createdAt].
  destruct (check Cpriority _); cbn [negb andb]; [|reflexivity].
  change (check Cstatus "pending") with true. cbn [negb].
  destruct (existsb _ tbl); reflexivity.
Qed.

Lemma updateTaskStatus_map (i : string) (v : jsval) (tbl : table) :
  updateTaskStatus i v tbl =
  let s := if truthy v then "completed" else "pending" in
  if existsb (has_id i) tbl
  then getTaskById i (map (fun t => if has_id i t then set_field Cstatus s t else t) tbl)
  else (Throw NotFound, tbl).
Proof.
  unfold updateTaskStatus, runQuery, bind, ensureInitialized, ret, exec.
  rewrite parse_update_status.
  cbn [exec_statement List.length Nat.eqb column_eqb negb andb].
  rewrite filter_matches_id.
  assert (check Cstatus (if truthy v then "completed" else "pending") = true) as ->
    by (destruct (truthy v); reflexivity).
  cbn [negb].
  rewrite (map_ext _ (fun t => if has_id i t
             then set_field Cstatus (if truthy v then "completed" else "pending") t
             else t)) by (intro t; rewrite matches_id; reflexivity).
  cbv zeta.
  destruct (existsb (has_id i) tbl) eqn:E.
  - assert (List.length (filter (has_id i) tbl) <> 0)%nat as N.
    { apply existsb_exists in E. destruct E as [t [Hin Ht]].
      assert (In t (filter (has_id i) tbl)) as X by (apply filter_In; auto).
      destruct (filter (has_id i) tbl); [contradiction|simpl; discriminate]. }
    apply Nat.eqb_neq in N. rewrite N. cbn [changes]. rewrite N. reflexivity.
  - assert (filter (has_id i) tbl = []) as ->.
    { clear -E. induction tbl as [|r tbl IH]; simpl in *; [reflexivity|].
      apply orb_false_iff in E. destruct E as [-> E]. auto. }
    reflexivity.
Qed.

Lemma deleteTask_filter (i : string) (tbl : table) :
  deleteTask i tbl =
  match find (has_id i) tbl with
  | Some t => (Ok t, filter (fun r => negb (has_id i r)) tbl)
  | None => (Throw NotFound, tbl)
  end.
Proof.
  unfold deleteTask, bind at 1. rewrite getTaskById_find.
  destruct (find (has_id i) tbl) as [t|]; [|reflexivity].
  unfold runQuery, bind, ensureInitialized, ret, exec.
  rewrite parse_delete_by_id.
  cbn [exec_statement List.length Nat.eqb].
  rewrite (filter_ext _ (fun r => negb (has_id i r)))
    by (intro r; rewrite matches_id; reflexivity).
  reflexivity.
Qed.
(** ** Conversions between UTF-16 and UTF-8 *)

Ltac nlia := zify; Z.to_euclidean_division_equations; lia.

Ltac decide_tests :=
  repeat match goal with
    | |- context [(?a <? ?b)%N] =>
        first [ replace (a <? b)%N with true by (symmetry; apply N.ltb_lt; lia)
              | replace (a <? b)%N with false by (symmetry; apply N.ltb_ge; lia) ]
    | |- context [(?a <=? ?b)%N] =>
        first [ replace (a <=? b)%N with true by (symmetry; apply N.leb_le; lia)
              | replace (a <=? b)%N with false by (symmetry; apply N.leb_gt; lia) ]
    end.

Lemma N_of_byte (n : N) : (n < 256)%N -> N_of_ascii (byte n) = n.
Proof. apply N_ascii_embedding. Qed.

Lemma utf8_decode_cons (a : ascii) (s1 : string) :
  utf8_decode (String a s1)
  = let b0 := N_of_ascii a in
    if (b0 <? 128)%N then b0 :: utf8_decode s1
    else if ((194 <=? b0) && (b0 <? 224))%N then
      match s1 with
      | String b s2 =>
          if continuation b
          then ((b0 - 192) * 64 + payload b)%N :: utf8_decode s2
          else REPLACEMENT :: utf8_decode s1
      | _ => REPLACEMENT :: utf8_decode s1
      end
    else if ((224 <=? b0) && (b0 <? 240))%N then
      match s1 with
      | String b (String c s3) =>
          let cp := ((b0 - 224) * 4096 + payload b * 64 + payload c)%N in
          if continuation b && continuation c && (2048 <=? cp)%N
             && negb ((55296 <=? cp) && (cp <? 57344))%N
          then cp :: utf8_decode s3
          else REPLACEMENT :: utf8_decode s1
      | _ => REPLACEMENT :: utf8_decode s1
      end
    else if ((240 <=? b0) && (b0 <? 245))%N then
      match s1 with
      | String b (String c (String d s4)) =>
          let cp := ((b0 - 240) * 262144 + payload b * 4096
                     + payload c * 64 + payload d)%N in
          if continuation b && continuation c && continuation d
             && (65536 <=? cp)%N && (cp <? 1114112)%N
          then cp :: utf8_decode s4
          else REPLACEMENT :: utf8_decode s1
      | _ => REPLACEMENT :: utf8_decode s1
      end
    else REPLACEMENT :: utf8_decode s1.
Proof. destruct s1; reflexivity. Qed.

Ltac name_byte n P :=
  let a := fresh "a" in
  pose proof (N_of_byte n ltac:(lia)) as P;
  set (a := byte n) in *; clearbody a.

Lemma utf8_decode_encode1 (c : N) (rest : string) :
  scalar c -> utf8_decode (utf8_of_code_point c ++ rest) = c :: utf8_decode rest.
Proof.
  intro Hc. unfold scalar in Hc. unfold utf8_of_code_point.
  destruct (c <? 128)%N eqn:E1.
  { apply N.ltb_lt in E1. name_byte c P0.
    cbn [append]. rewrite utf8_decode_cons. cbv beta zeta match. rewrite P0. decide_tests. reflexivity. }
  apply N.ltb_ge in E1. destruct (c <? 2048)%N eqn:E2.
  { apply N.ltb_lt in E2.
    remember (c mod 64)%N as r0 eqn:R0. remember (c / 64)%N as q eqn:Q.
    assert (c = 64 * q + r0 /\ r0 < 64)%N as [C B0] by (subst q r0; nlia).
    clear R0 Q. name_byte (192 + q)%N P0. name_byte (128 + r0)%N P1.
    cbn [append]. rewrite utf8_decode_cons. cbv beta zeta match.
    unfold continuation, payload.
    rewrite P0, P1.
    replace (192 + q - 192)%N with q by lia.
    replace (128 + r0 - 128)%N with r0 by lia.
    decide_tests. cbn [andb negb].
    f_equal. lia. }
  apply N.ltb_ge in E2. destruct (c <? 65536)%N eqn:E3.
  { apply N.ltb_lt in E3.
    remember (c mod 64)%N as r0 eqn:R0. remember (c / 64 mod 64)%N as r1 eqn:R1.
    remember (c / 4096)%N as q eqn:Q.
    assert (c = 4096 * q + 64 * r1 + r0 /\ r0 < 64 /\ r1 < 64)%N as [C [B0 B1]]
      by (subst q r0 r1; nlia).
    clear R0 R1 Q.
    name_byte (224 + q)%N P0. name_byte (128 + r1)%N P1. name_byte (128 + r0)%N P2.
    cbn [append]. rewrite utf8_decode_cons. cbv beta zeta match.
    unfold continuation, payload.
    rewrite P0, P1, P2.
    replace (224 + q - 224)%N with q by lia.
    replace (128 + r1 - 128)%N with r1 by lia.
    replace (128 + r0 - 128)%N with r0 by lia.
    destruct Hc as [Hc|Hc]; decide_tests; cbn [andb negb]; f_equal; lia. }
  apply N.ltb_ge in E3.
  remember (c mod 64)%N as r0 eqn:R0. remember (c / 64 mod 64)%N as r1 eqn:R1.
  remember (c / 4096 mod 64)%N as r2 eqn:R2. remember (c / 262144)%N as q eqn:Q.
  assert (c = 262144 * q + 4096 * r2 + 64 * r1 + r0
          /\ r0 < 64 /\ r1 < 64 /\ r2 < 64)%N as [C [B0 [B1 B2]]]
    by (subst q r0 r1 r2; nlia).
  clear R0 R1 R2 Q.
  name_byte (240 + q)%N P0. name_byte (128 + r2)%N P1.
  name_byte (128 + r1)%N P2. name_byte (128 + r0)%N P3.
  cbn [append]. rewrite utf8_decode_cons. cbv beta zeta match.
    unfold continuation, payload.
  rewrite P0, P1, P2, P3.
  replace (240 + q - 240)%N with q by lia.
  replace (128 + r2 - 128)%N with r2 by lia.
  replace (128 + r1 - 128)%N with r1 by lia.
  replace (128 + r0 - 128)%N with r0 by lia.
  decide_tests. cbn [andb negb].
  f_equal. lia.
Qed.

Lemma utf8_decode_encode (cps : list N) :
  Forall scalar cps -> utf8_decode (utf8_encode cps) = cps.
Proof.
  induction 1 as [|c cps Hc _ IH]; [reflexivity|].
  cbn [utf8_encode]. rewrite utf8_decode_encode1 by exact Hc.
  f_equal. exact IH.
Qed.

(** A string without unpaired surrogate is the UTF-16 form of its code
    points, and they all have a UTF-8 form. *)
Lemma well_formed_code_points (n : nat) (w : text) :
  (List.length w <= n)%nat -> well_formed w = true ->
  Forall scalar (code_points w) /\ utf16_encode (code_points w) = w.
Proof.
  revert w. induction n as [|n IH]; intros w Hn Hw.
  { destruct w; [split; [constructor|reflexivity]|simpl in Hn; lia]. }
  destruct w as [|u w]; [split; [constructor|reflexivity]|].
  cbn [well_formed code_points] in *.
  apply andb_prop in Hw. destruct Hw as [Hu Hw]. apply N.ltb_lt in Hu.
  destruct (is_high u) eqn:Eh.
  - destruct w as [|v w]; [discriminate Hw|].
    apply andb_prop in Hw. destruct Hw as [Hv Hw]. rewrite Hv.
    destruct (IH w) as [F E]; [simpl in Hn |- *; lia|exact Hw|].
    unfold is_high in Eh. unfold is_low in Hv.
    apply andb_prop in Eh, Hv. destruct Eh as [Eh1 Eh2], Hv as [Hv1 Hv2].
    apply N.leb_le in Eh1, Hv1. apply N.ltb_lt in Eh2, Hv2.
    assert (65536 <= 65536 + (u - 55296) * 1024 + (v - 56320) < 1114112
            /\ 55296 + (65536 + (u - 55296) * 1024 + (v - 56320) - 65536) / 1024 = u
            /\ 56320 + (65536 + (u - 55296) * 1024 + (v - 56320) - 65536) mod 1024 = v)%N
      as [B [U V]] by nlia.
    split.
    + constructor; [|exact F]. unfold scalar. lia.
    + unfold utf16_encode in *. cbn [flat_map]. rewrite E.
      unfold utf16_of_code_point. rewrite U, V.
      replace (_ <? 65536)%N with false by (symmetry; apply N.ltb_ge; lia).
      reflexivity.
  - apply andb_prop in Hw. destruct Hw as [Hl Hw].
    apply negb_true_iff in Hl. rewrite Hl.
    destruct (IH w) as [F E]; [simpl in Hn; lia|exact Hw|].
    assert (u < 55296 \/ 57344 <= u)%N as Hs.
    { unfold is_high in Eh. unfold is_low in Hl.
      destruct (N.leb_spec 55296 u); [|lia].
      destruct (N.ltb_spec u 56320); [discriminate Eh|].
      destruct (N.leb_spec 56320 u); [|lia].
      destruct (N.ltb_spec u 57344); [discriminate Hl|lia]. }
    split.
    + constructor; [|exact F]. unfold scalar. lia.
    + unfold utf16_encode in *. cbn [flat_map]. rewrite E.
      unfold utf16_of_code_point.
      replace (u <? 65536)%N with true by (symmetry; apply N.ltb_lt; lia).
      reflexivity.
Qed.

(** Binding a string and reading it back gives the string, when none of its
    surrogates is unpaired. *)
Lemma fromUtf8_toUtf8 (w : text) :
  well_formed w = true -> fromUtf8 (toUtf8 w) = w.
Proof.
  intro Hw. destruct (well_formed_code_points (List.length w) w (le_n _) Hw) as [F E].
  unfold fromUtf8, toUtf8. rewrite utf8_decode_encode by exact F. exact E.
Qed.

(** The code points of any string of 16-bit code units have a UTF-8
    form. *)
Lemma code_points_scalar (n : nat) (w : text) :
  (List.length w <= n)%nat -> forallb (fun u => (u <? 65536)%N) w = true ->
  Forall scalar (code_points w).
Proof.
  revert w. induction n as [|n IH]; intros w Hn Hw.
  { destruct w; [constructor|simpl in Hn; lia]. }
  destruct w as [|u w]; [constructor|].
  cbn [forallb code_points] in *.
  apply andb_prop in Hw. destruct Hw as [Hu Hw]. apply N.ltb_lt in Hu.
  assert (Forall scalar (code_points w)) as F by (apply IH; [simpl in Hn; lia|exact Hw]).
  assert (scalar REPLACEMENT) as R by (unfold scalar, REPLACEMENT; lia).
  destruct (is_high u) eqn:Eh.
  - destruct w as [|v w]; [constructor; [exact R|constructor]|].
    destruct (is_low v) eqn:El; [|constructor; assumption].
    constructor.
    + unfold is_high in Eh. unfold is_low in El.
      apply andb_prop in Eh, El. destruct Eh as [Eh1 Eh2], El as [El1 El2].
      apply N.leb_le in Eh1, El1. apply N.ltb_lt in Eh2, El2.
      unfold scalar. nlia.
    + cbn [forallb] in Hw. apply andb_prop in Hw. destruct Hw as [_ Hw].
      apply IH; [simpl in Hn; lia|exact Hw].
  - destruct (is_low u) eqn:El; constructor; try assumption.
    unfold scalar. unfold is_high in Eh. unfold is_low in El.
    destruct (N.leb_spec 55296 u); [|lia].
    destruct (N.ltb_spec u 56320); [discriminate Eh|].
    destruct (N.leb_spec 56320 u); [|lia].
    destruct (N.ltb_spec u 57344); [discriminate El|lia].
Qed.

Lemma utf16_encode_well_formed (cps : list N) :
  Forall scalar cps -> well_formed (utf16_encode cps) = true.
Proof.
  induction 1 as [|c cps Hc _ IH]; [reflexivity|].
  unfold utf16_encode in *. cbn [flat_map]. unfold utf16_of_code_point.
  unfold scalar in Hc.
  destruct (c <? 65536)%N eqn:E.
  - apply N.ltb_lt in E. cbn [app well_formed]. unfold is_high, is_low.
    destruct Hc as [Hc|Hc]; decide_tests; cbn [andb negb]; exact IH.
  - apply N.ltb_ge in E.
    remember ((c - 65536) / 1024)%N as q eqn:Q.
    remember ((c - 65536) mod 1024)%N as r eqn:R.
    assert (q < 1024 /\ r < 1024)%N as [Bq Br] by (subst q r; nlia).
    clear Q R. cbn [app well_formed]. unfold is_high, is_low.
    decide_tests. cbn [andb negb]. exact IH.
Qed.

(** What is read back of a bound string holds no unpaired surrogate: a
    string is read back as it was bound exactly when it holds none. *)
Lemma read_back_exactly_well_formed (w : text) :
  forallb (fun u => (u <? 65536)%N) w = true ->
  fromUtf8 (toUtf8 w) = w <-> well_formed w = true.
Proof.
  intro H. split; [|apply fromUtf8_toUtf8].
  intro E. rewrite <- E. unfold fromUtf8, toUtf8.
  pose proof (code_points_scalar (List.length w) w (le_n _) H) as F.
  rewrite utf8_decode_encode by exact F.
  apply utf16_encode_well_formed. exact F.
Qed.

Lemma of_string_well_formed (s : string) : well_formed (of_string s) = true.
Proof.
  unfold of_string. induction s as [|a s IH]; [reflexivity|].
  cbn [list_ascii_of_string map well_formed].
  pose proof (N_ascii_bounded a) as B.
  unfold is_high, is_low. decide_tests. cbn [andb negb]. exact IH.
Qed.


Lemma find_app {A} (p : A -> bool) (l l' : list A) :
  find p (l ++ l')%list =
  match find p l with Some x => Some x | None => find p l' end.
Proof.
  induction l as [|x l IH]; simpl; [reflexivity|].
  destruct (p x); [reflexivity|exact IH].
Qed.

Lemma absent_existsb (i : string) (tbl : table) :
  (forall t, In t tbl -> t.(id) <> i) <-> existsb (has_id i) tbl = false.
Proof.
  split.
  - intro H. destruct (existsb (has_id i) tbl) eqn:E; [|reflexivity].
    apply existsb_exists in E. destruct E as [t [Hin Ht]].
    apply String.eqb_eq in Ht. elim (H t Hin Ht).
  - intros E t Hin Hi.
    assert (existsb (has_id i) tbl = true) as X.
    { apply existsb_exists. exists t. split; [exact Hin|].
      unfold has_id. rewrite Hi. apply String.eqb_refl. }
    congruence.
Qed.

(** Under the primary key a row is determined by its id. *)
Lemma unique_ids_inj (tbl : table) (r t : Task) :
  unique_ids tbl = true -> In r tbl -> In t tbl -> r.(id) = t.(id) -> r = t.
Proof.
  intros U Hr Ht E.
  pose proof (find_stored tbl r U Hr) as Fr.
  pose proof (find_stored tbl t U Ht) as Ft.
  rewrite E in Fr. congruence.
Qed.

Lemma find_map_same_id (i : string) (g : Task -> Task) (tbl : table) :
  (forall t, (g t).(id) = t.(id)) ->
  find (has_id i) (map g tbl) = option_map g (find (has_id i) tbl).
Proof.
  intro G. induction tbl as [|r tbl IH]; simpl; [reflexivity|].
  unfold has_id at 1. rewrite G. fold (has_id i r).
  destruct (has_id i r); [reflexivity|exact IH].
Qed.

(** ** Create, then fetch *)

Lemma createTask16_insert (env : Env) (d : taskStorage16.TaskData.t) (tbl : table) :
  taskStorage16.createTask env d tbl =
  let t := taskStorage16.newTask env d in
  let r := mkTask (toUtf8 (taskStorage16.id t)) (toUtf8 (taskStorage16.title t))
             (toUtf8 (taskStorage16.description t))
             (toUtf8 (taskStorage16.priority t))
             (toUtf8 (taskStorage16.status t))
             (toUtf8 (taskStorage16.createdAt t)) in
  if negb (check Cpriority r.(priority)) then (Throw (CHECK_failed Cpriority), tbl)
  else if existsb (has_id r.(id)) tbl then (Throw UNIQUE_failed, tbl)
  else (Ok t, (tbl ++ [r])%list).
Proof.
  unfold taskStorage16.createTask. cbv zeta. unfold bind at 1.
  cbn [map]. rewrite insert_row.
  cbn [id priority].
  destruct (negb (check Cpriority _)); [reflexivity|].
  change (toUtf8 (taskStorage16.status (taskStorage16.newTask env d)))
    with "pending".
  change (check Cstatus "pending") with true. cbn [negb].
  destruct (existsb _ tbl); reflexivity.
Qed.

Lemma getTaskById16_find (i : text) (tbl : table) :
  taskStorage16.getTaskById i tbl =
  (match find (has_id (toUtf8 i)) tbl with
   | Some r => Ok (taskStorage16.row_object r)
   | None => Throw NotFound
   end, tbl).
Proof.
  unfold taskStorage16.getTaskById, getQuery, bind, ensureInitialized, ret, exec.
  rewrite parse_select_by_id. cbn [exec_statement List.length Nat.eqb order_rows rows].
  rewrite filter_matches_id, hd_error_filter.
  destruct (find (has_id (toUtf8 i)) tbl); reflexivity.
Qed.

Lemma or_else16_well_formed (o : option text) (s : string) :
  match o with Some v => well_formed v = true | None => True end ->
  well_formed (taskStorage16.or_else o (of_string s)) = true.
Proof.
  destruct o as [[|u v]|]; cbn [taskStorage16.or_else]; intro H;
    first [exact H|apply of_string_well_formed].
Qed.

(** C1, as stated, fails: a title that is one surrogate code unit is a
    string, is not blank and has length 1, so that validation lets it
    through; [createTask] returns it as given, the table keeps U+FFFD, and
    [getTaskById] returns a record with another title. *)
Lemma unpaired_surrogate_is_not_read_back :
  let env := mkEnv 1703123456789 "0.i" 1703123456790 in
  let d := taskStorage16.TaskData.mk [55296%N] None None in
  spec.valid_taskData16 d
  /\ exists task tbl',
       taskStorage16.createTask env d [] = (Ok task, tbl')
       /\ taskStorage16.title task = [55296%N]
       /\ exists task',
            taskStorage16.getTaskById (taskStorage16.id task) tbl' = (Ok task', tbl')
            /\ taskStorage16.title task' = [65533%N]
            /\ task' <> task.
Proof.
  cbv zeta. split; [exact I|].
  eexists. eexists. split; [vm_compute; reflexivity|].
  split; [reflexivity|].
  eexists. split; [vm_compute; reflexivity|].
  split; [reflexivity|]. intro H. discriminate H.
Qed.

(** C1, amended.  For every valid create input whose title and description
    hold no unpaired surrogate, whenever [createTask] returns a record,
    [getTaskById] on the returned id yields that very record: the generated
    id, the given title, the description or the empty string, the priority
    or "medium", status "pending" and the creation time. *)
Theorem createTask_then_getTaskById (env : Env) (d : taskStorage16.TaskData.t)
    (tbl : table) (task : taskStorage16.Task) (tbl' : table) :
  spec.valid_taskData16 d ->
  spec.paired_surrogates d ->
  taskStorage16.createTask env d tbl = (Ok task, tbl') ->
  taskStorage16.getTaskById (taskStorage16.id task) tbl' = (Ok task, tbl')
  /\ taskStorage16.id task = of_string (generateId (now env) (random env))
  /\ taskStorage16.title task = taskStorage16.TaskData.title d
  /\ taskStorage16.description task
     = taskStorage16.or_else (taskStorage16.TaskData.description d) (of_string "")
  /\ taskStorage16.priority task
     = taskStorage16.or_else (taskStorage16.TaskData.priority d) (of_string "medium")
  /\ taskStorage16.status task = of_string "pending"
  /\ taskStorage16.createdAt task = of_string (toISOString (date env)).
Proof.
  intros V [Wt Wd]. rewrite createTask16_insert. cbv zeta.
  destruct (negb (check Cpriority _)); [discriminate|].
  cbn [id].
  destruct (existsb _ tbl) eqn:E; [discriminate|].
  intro H. injection H as <- <-.
  split; [|repeat split].
  rewrite getTaskById16_find, find_app, (find_none_existsb _ _ E).
  cbn [find]. unfold has_id at 1. cbn [id]. rewrite String.eqb_refl.
  f_equal. f_equal. unfold taskStorage16.row_object.
  cbn [id title description priority status createdAt].
  assert (well_formed (taskStorage16.priority (taskStorage16.newTask env d)) = true)
    as Wp.
  { cbn [taskStorage16.newTask taskStorage16.priority].
    apply or_else16_well_formed. unfold spec.valid_taskData16 in V.
    destruct (taskStorage16.TaskData.priority d) as [p|]; [|exact I].
    apply in_map_iff in V. destruct V as [v [<- _]]. apply of_string_well_formed. }
  assert (well_formed (taskStorage16.description (taskStorage16.newTask env d)) = true)
    as Wdesc.
  { cbn [taskStorage16.newTask taskStorage16.description].
    apply or_else16_well_formed. exact Wd. }
  rewrite !fromUtf8_toUtf8;
    first [reflexivity | assumption | apply of_string_well_formed].
Qed.

Lemma createTask_then_getTaskById_witness :
  let env := mkEnv 1703123456789 "0.i" 1703123456790 in
  let d := taskStorage16.TaskData.mk
             ([55357; 56832]%N ++ of_string " Buy milk")%list None
             (Some (of_string "low")) in
  exists task tbl',
    taskStorage16.createTask env d [] = (Ok task, tbl')
    /\ taskStorage16.getTaskById (taskStorage16.id task) tbl' = (Ok task, tbl').
Proof.
  cbv zeta. eexists. eexists. split; [vm_compute; reflexivity|].
  refine (proj1 (createTask_then_getTaskById
                   (mkEnv 1703123456789 "0.i" 1703123456790)
                   (taskStorage16.TaskData.mk
                      ([55357; 56832]%N ++ of_string " Buy milk")%list None
                      (Some (of_string "low")))
                   [] _ _ _ _ _)).
  - left. reflexivity.
  - split; [reflexivity|exact I].
  - vm_compute. reflexivity.
Defined.

(** The condition of the amended claim cannot be left out: whenever
    [createTask] returns a record whose title holds an unpaired surrogate,
    [getTaskById] returns a record with another title. *)
Lemma unpaired_surrogate_changes_title (env : Env) (d : taskStorage16.TaskData.t)
    (tbl : table) (task : taskStorage16.Task) (tbl' : table) :
  forallb (fun u => (u <? 65536)%N) (taskStorage16.TaskData.title d) = true ->
  well_formed (taskStorage16.TaskData.title d) = false ->
  taskStorage16.createTask env d tbl = (Ok task, tbl') ->
  exists task',
    taskStorage16.getTaskById (taskStorage16.id task) tbl' = (Ok task', tbl')
    /\ taskStorage16.title task' <> taskStorage16.title task.
Proof.
  intros B W. rewrite createTask16_insert. cbv zeta.
  destruct (negb (check Cpriority _)); [discriminate|].
  cbn [id].
  destruct (existsb _ tbl) eqn:E; [discriminate|].
  intro H. injection H as <- <-.
  rewrite getTaskById16_find, find_app, (find_none_existsb _ _ E).
  cbn [find]. unfold has_id at 1. cbn [id]. rewrite String.eqb_refl.
  eexists. split; [reflexivity|].
  cbn [taskStorage16.row_object taskStorage16.title title taskStorage16.newTask].
  intro X. apply read_back_exactly_well_formed in X; [congruence|exact B].
Qed.

(** ** Delete *)

(** C4.  On a stored id [deleteTask] returns the row as it was before the
    deletion and removes it, so that fetching the id afterwards fails with
    "Task not found" while every other row stays; on an absent id it fails
    with "Task not found" and the table is as before. *)
Theorem deleteTask_returns_prior_row (tbl : table) (i : string) :
  unique_ids tbl = true ->
  (forall t, In t tbl -> t.(id) = i ->
     let tbl' := filter (fun r => negb (has_id i r)) tbl in
     deleteTask i tbl = (Ok t, tbl')
     /\ getTaskById i tbl' = (Throw NotFound, tbl')
     /\ (forall r, In r tbl' <-> In r tbl /\ r.(id) <> i))
  /\
  ((forall t, In t tbl -> t.(id) <> i) ->
     deleteTask i tbl = (Throw NotFound, tbl)).
Proof.
  intro U. split.
  - intros t Hin <- tbl'. subst tbl'.
    rewrite deleteTask_filter, (find_stored tbl t U Hin).
    split; [reflexivity|]. split.
    + rewrite getTaskById_find, find_after_delete. reflexivity.
    + intro r. rewrite filter_In. unfold has_id.
      rewrite negb_true_iff, String.eqb_neq. reflexivity.
  - intro A. apply absent_existsb in A.
    rewrite deleteTask_filter, (find_none_existsb _ _ A). reflexivity.
Qed.

Lemma deleteTask_returns_prior_row_witness :
  unique_ids [mkTask "task_1_a" "Buy milk" "" "low" "completed" "2023-12-20T10:30:45.123Z"] = true
  /\ deleteTask "task_1_a"
       [mkTask "task_1_a" "Buy milk" "" "low" "completed" "2023-12-20T10:30:45.123Z"]
     = (Ok (mkTask "task_1_a" "Buy milk" "" "low" "completed" "2023-12-20T10:30:45.123Z"), []).
Proof.
  split; [reflexivity|].
  apply (deleteTask_returns_prior_row
           [mkTask "task_1_a" "Buy milk" "" "low" "completed" "2023-12-20T10:30:45.123Z"]
           "task_1_a" eq_refl);
    [left; reflexivity | reflexivity].
Defined.

(** ** Status update *)

(** C5.  On a stored id [updateTaskStatus] with [true] gives status
    "completed" and with [false] status "pending"; the record it returns is
    the row as a fetch after the update finds it; the id, title,
    description, priority and creation time of that row are as before, and
    so is every other row. *)
Theorem updateTaskStatus_changes_status_only (tbl : table) (t : Task) (b : bool) :
  unique_ids tbl = true ->
  In t tbl ->
  let t' := mkTask t.(id) t.(title) t.(description) t.(priority)
              (if b then "completed" else "pending") t.(createdAt) in
  let tbl' := map (fun r => if has_id t.(id) r then t' else r) tbl in
  updateTaskStatus t.(id) (JBool b) tbl = (Ok t', tbl')
  /\ getTaskById t.(id) tbl' = (Ok t', tbl')
  /\ (forall r, In r tbl -> r.(id) <> t.(id) -> In r tbl').
Proof.
  intros U Hin t' tbl'.
  assert (tbl' = map (fun r => if has_id t.(id) r
                               then set_field Cstatus (if b then "completed" else "pending") r
                               else r) tbl) as E.
  { apply map_ext_in. intros r Hr. destruct (has_id (id t) r) eqn:H; [|reflexivity].
    apply String.eqb_eq in H.
    rewrite (unique_ids_inj tbl r t U Hr Hin H). reflexivity. }
  assert (getTaskById t.(id) tbl' = (Ok t', tbl')) as G.
  { rewrite getTaskById_find. rewrite E at 1.
    rewrite find_map_same_id.
    - rewrite (find_stored tbl t U Hin). cbn [option_map].
      rewrite has_id_own. reflexivity.
    - intro r. destruct (has_id (id t) r); reflexivity. }
  split; [|split].
  - rewrite updateTaskStatus_map. cbn [truthy]. cbv zeta.
    rewrite <- E.
    assert (existsb (has_id (id t)) tbl = true) as ->.
    { apply existsb_exists. exists t. split; [exact Hin|apply has_id_own]. }
    exact G.
  - exact G.
  - intros r Hr Hne. subst tbl'. apply in_map_iff. exists r. split; [|exact Hr].
    apply String.eqb_neq in Hne. unfold has_id. rewrite Hne. reflexivity.
Qed.

Lemma updateTaskStatus_changes_status_only_witness :
  unique_ids [mkTask "task_1_a" "Buy milk" "" "low" "pending" "2023-12-20T10:30:45.123Z"] = true
  /\ In (mkTask "task_1_a" "Buy milk" "" "low" "pending" "2023-12-20T10:30:45.123Z")
        [mkTask "task_1_a" "Buy milk" "" "low" "pending" "2023-12-20T10:30:45.123Z"]
  /\ updateTaskStatus "task_1_a" (JBool true)
       [mkTask "task_1_a" "Buy milk" "" "low" "pending" "2023-12-20T10:30:45.123Z"]
     = (Ok (mkTask "task_1_a" "Buy milk" "" "low" "completed" "2023-12-20T10:30:45.123Z"),
        [mkTask "task_1_a" "Buy milk" "" "low" "completed" "2023-12-20T10:30:45.123Z"]).
Proof.
  split; [reflexivity|]. split; [left; reflexivity|].
  apply (updateTaskStatus_changes_status_only
           [mkTask "task_1_a" "Buy milk" "" "low" "pending" "2023-12-20T10:30:45.123Z"]
           (mkTask "task_1_a" "Buy milk" "" "low" "pending" "2023-12-20T10:30:45.123Z")
           true eq_refl (or_introl eq_refl)).
Defined.
(** ** The two readings of the table agree on text of code units below 128 *)

Lemma is_ascii_app (a b : string) :
  is_ascii (a ++ b) = is_ascii a && is_ascii b.
Proof.
  unfold is_ascii. induction a as [|c a IH]; [reflexivity|].
  cbn [append forallb_string]. rewrite IH. apply andb_assoc.
Qed.

Lemma toUtf8_of_string (s : string) :
  is_ascii s = true -> toUtf8 (of_string s) = s.
Proof.
  unfold toUtf8, of_string, is_ascii.
  induction s as [|c s IH]; [reflexivity|].
  cbn [forallb_string list_ascii_of_string map code_points]. intro H.
  apply andb_true_iff in H. destruct H as [Hc Hs]. apply N.ltb_lt in Hc.
  unfold is_high, is_low. decide_tests. cbn [andb utf8_encode].
  unfold utf8_of_code_point. decide_tests. cbn [append].
  unfold byte. rewrite ascii_N_embedding, (IH Hs). reflexivity.
Qed.

Lemma fromUtf8_ascii (s : string) :
  is_ascii s = true -> fromUtf8 s = of_string s.
Proof.
  unfold fromUtf8, of_string, is_ascii.
  induction s as [|c s IH]; [reflexivity|].
  cbn [forallb_string]. intro H.
  apply andb_true_iff in H. destruct H as [Hc Hs].
  rewrite utf8_decode_cons. cbv zeta. rewrite Hc.
  unfold utf16_encode in *. cbn [flat_map list_ascii_of_string map].
  rewrite (IH Hs). unfold utf16_of_code_point.
  apply N.ltb_lt in Hc. decide_tests. reflexivity.
Qed.

Lemma or_else16_widen (o : option string) (d : string) :
  taskStorage16.or_else (option_map of_string o) (of_string d)
  = of_string (or_else o d).
Proof.
  unfold or_else, truthy_text. destruct o as [[|c v]|]; reflexivity.
Qed.

Lemma is_ascii_or_else (o : option string) (d : string) :
  props.ascii_option o = true -> is_ascii d = true -> is_ascii (or_else o d) = true.
Proof.
  unfold or_else, truthy_text. destruct o as [v|]; [|auto].
  destruct (v =? ""); auto.
Qed.

Lemma is_ascii_fixed (w : nat) (n : Z) : is_ascii (fixed w n) = true.
Proof.
  revert n. induction w as [|w IH]; intro n; [reflexivity|].
  cbn [fixed]. rewrite is_ascii_app, IH. cbn [andb].
  unfold is_ascii, digit. cbn [forallb_string].
  assert (0 <= n mod 10 < 10)%Z as B by (apply Z.mod_pos_bound; lia).
  rewrite N_ascii_embedding by lia.
  replace (48 + Z.to_N (n mod 10) <? 128)%N with true
    by (symmetry; apply N.ltb_lt; lia).
  reflexivity.
Qed.

Lemma is_ascii_toISOString (ms : Z) : is_ascii (toISOString ms) = true.
Proof.
  unfold toISOString. destruct (civil (ms / 86400000)) as [[y m] d].
  destruct ((0 <=? y) && (y <=? 9999))%Z; [|destruct (y <? 0)%Z];
    rewrite !is_ascii_app, !is_ascii_fixed; reflexivity.
Qed.

(** On a create input of code units below 128, and an id of the same,
    [createTask] on strings of any code units is [createTask] as the rest
    of this file reads it. *)
Lemma createTask16_agrees (env : Env) (d : TaskData.t) (tbl : table) :
  is_ascii (TaskData.title d) = true ->
  props.ascii_option (TaskData.description d) = true ->
  props.ascii_option (TaskData.priority d) = true ->
  is_ascii (generateId (now env) (random env)) = true ->
  taskStorage16.createTask env (props.widen_taskData d) tbl
  = props.widen_result (createTask env d tbl).
Proof.
  intros Ht Hd Hp Hi.
  rewrite createTask16_insert, createTask_insert. cbv zeta.
  unfold taskStorage16.newTask, props.widen_taskData.
  cbn [taskStorage16.TaskData.title taskStorage16.TaskData.description
       taskStorage16.TaskData.priority taskStorage16.id taskStorage16.title
       taskStorage16.description taskStorage16.priority taskStorage16.status
       taskStorage16.createdAt id priority].
  rewrite !or_else16_widen.
  rewrite !toUtf8_of_string
    by first [assumption | apply is_ascii_toISOString
             | apply is_ascii_or_else; [assumption|reflexivity] | reflexivity].
  cbn [newTask id priority].
  destruct (check Cpriority (or_else (TaskData.priority d) "medium"));
    cbn [negb andb props.widen_result]; [|reflexivity].
  destruct (existsb _ tbl); cbn [negb props.widen_result]; reflexivity.
Qed.

(** On an id and a table of code units below 128, so is [getTaskById]. *)
Lemma getTaskById16_agrees (i : string) (tbl : table) :
  is_ascii i = true -> forallb props.ascii_task tbl = true ->
  taskStorage16.getTaskById (of_string i) tbl
  = props.widen_result (getTaskById i tbl).
Proof.
  intros Hi Ht. rewrite getTaskById16_find, getTaskById_find.
  rewrite (toUtf8_of_string i Hi).
  destruct (find (has_id i) tbl) as [t|] eqn:F; [|reflexivity].
  cbn [props.widen_result]. f_equal. f_equal.
  apply find_some in F. destruct F as [Hin _].
  rewrite forallb_forall in Ht. specialize (Ht t Hin).
  unfold props.ascii_task in Ht.
  repeat (apply andb_true_iff in Ht; destruct Ht as [Ht ?]).
  unfold taskStorage16.row_object, props.widen_task.
  rewrite !fromUtf8_ascii by assumption. reflexivity.
Qed.


(** ** Order of text values *)

Lemma leb_String (a b : ascii) (s t : string) :
  String.leb (String a s) (String b t) =
  match Ascii.compare a b with
  | Eq => String.leb s t
  | Lt => true
  | Gt => false
  end.
Proof. unfold String.leb. simpl. destruct (Ascii.compare a b); reflexivity. Qed.

Lemma leb_trans (s1 s2 s3 : string) :
  String.leb s1 s2 = true -> String.leb s2 s3 = true -> String.leb s1 s3 = true.
Proof.
  revert s2 s3. induction s1 as [|a s1 IH]; intros [|b s2] [|c s3];
    try reflexivity; try discriminate.
  rewrite !leb_String. unfold Ascii.compare.
  destruct (N.compare_spec (N_of_ascii a) (N_of_ascii b));
    destruct (N.compare_spec (N_of_ascii b) (N_of_ascii c));
    destruct (N.compare_spec (N_of_ascii a) (N_of_ascii c));
    try discriminate; try reflexivity; try lia.
  apply IH.
Qed.

(** ** The sorter *)

Section Sorter.

Variable le : Task -> Task -> bool.
Hypothesis le_total : forall a b, le a b = true \/ le b a = true.
Hypothesis le_trans : forall a b c, le a b = true -> le b c = true -> le a c = true.

Lemma insert_sorted_perm (x : Task) (l : list Task) :
  Permutation (insert_sorted le x l) (x :: l).
Proof.
  induction l as [|y l IH]; simpl; [reflexivity|].
  destruct (le x y); [reflexivity|].
  rewrite IH. apply perm_swap.
Qed.

Lemma sort_rows_perm (l : list Task) : Permutation (sort_rows le l) l.
Proof.
  induction l as [|x l IH]; simpl; [constructor|].
  rewrite insert_sorted_perm. constructor. exact IH.
Qed.

Lemma insert_sorted_ok (x : Task) (l : list Task) :
  StronglySorted (fun a b => le a b = true) l ->
  StronglySorted (fun a b => le a b = true) (insert_sorted le x l).
Proof.
  induction 1 as [|y l S IH F]; simpl.
  - constructor; constructor.
  - destruct (le x y) eqn:E.
    + constructor; [constructor; assumption|].
      constructor; [exact E|].
      eapply Forall_impl; [|exact F]. intros z Hz. eapply le_trans; eauto.
    + constructor; [exact IH|].
      eapply Permutation_Forall; [symmetry; apply insert_sorted_perm|].
      constructor; [|exact F].
      destruct (le_total x y) as [H|H]; [congruence|exact H].
Qed.

Lemma sort_rows_sorted (l : list Task) :
  StronglySorted (fun a b => le a b = true) (sort_rows le l).
Proof.
  induction l as [|x l IH]; simpl; [constructor|].
  apply insert_sorted_ok. exact IH.
Qed.

End Sorter.

Lemma le_by_total (c : column) (d : direction) (a b : Task) :
  le_by c d a b = true \/ le_by c d b a = true.
Proof. destruct d; simpl; apply String.leb_total. Qed.

Lemma le_by_trans (c : column) (d : direction) (x y z : Task) :
  le_by c d x y = true -> le_by c d y z = true -> le_by c d x z = true.
Proof. destruct d; simpl; eauto using leb_trans. Qed.

Lemma order_rows_perm (o : option (column * direction)) (l : list Task) :
  Permutation (order_rows o l) l.
Proof.
  destruct o as [[c d]|]; simpl; [|reflexivity].
  apply sort_rows_perm.
Qed.

(** ** Listing *)

Lemma matches_selected (st pr : option string) (t : Task) :
  matches
    ((match st with Some _ => [Cstatus] | None => [] end)
     ++ match pr with Some _ => [Cpriority] | None => [] end)%list
    ((match st with Some v => [v] | None => [] end)
     ++ match pr with Some v => [v] | None => [] end)%list t
  = spec.selected st pr t.
Proof.
  unfold spec.selected, spec.wanted.
  destruct st, pr; simpl; rewrite ?andb_true_r; reflexivity.
Qed.

Ltac run_parse :=
  match goal with
  | |- context [parse ?s] =>
      let r := eval vm_compute in (parse s) in
      change (parse s) with r
  end.

Lemma truthy_text_proper (v : string) :
  spec.proper (Some v) -> truthy_text (Some v) = Some v.
Proof.
  unfold spec.proper, truthy_text. intro H.
  destruct (v =? "") eqn:E; [|reflexivity].
  apply String.eqb_eq in E. congruence.
Qed.

(** What [getAllTasks] computes on proper filters and a recognized sort
    field. *)
Lemma getAllTasks_exec (st pr so : option string) (tbl : table) :
  spec.proper st -> spec.proper pr -> spec.recognized so ->
  getAllTasks (Filters.mk st pr so) tbl =
  (Ok (order_rows (spec.order_of so) (filter (spec.selected st pr) tbl)), tbl).
Proof.
  intros Hst Hpr Hso.
  rewrite <- (filter_ext _ _ (matches_selected st pr)).
  unfold getAllTasks, allQuery, bind, ensureInitialized, ret, exec, select_sql,
    buildWhereClause, buildOrderByClause.
  cbn [Filters.status Filters.priority Filters.sortBy].
  assert (so = None \/ so = Some "title" \/ so = Some "priority"
          \/ so = Some "status" \/ so = Some "createdAt") as Cases.
  { destruct Hso as [->|[c [-> Hc]]]; [auto|].
    simpl in Hc. intuition (subst; auto). }
  destruct st as [s|]; [rewrite (truthy_text_proper s Hst)|];
    (destruct pr as [p|]; [rewrite (truthy_text_proper p Hpr)|]);
    destruct Cases as [ -> | [ -> | [ -> | [ -> | -> ] ] ] ];
    cbn [truthy_text String.eqb Ascii.eqb Bool.eqb app List.length Nat.ltb Nat.leb
         whereClause params join String.concat String.append];
    run_parse; reflexivity.
Qed.

(** ** Calendar and timestamps *)

Section Calendar.

Local Open Scope Z_scope.


Lemma civil_bounds (days : Z) :
  let '(y, m, d) := civil days in 1 <= m <= 12 /\ 1 <= d <= 31.
Proof.
  unfold civil. cbv zeta.
  set (z := days + 719468).
  assert (0 <= z mod 146097 < 146097) as Hdoe by (apply Z.mod_pos_bound; lia).
  generalize dependent (z mod 146097). intros doe Hdoe.
  set (yoe := (doe - doe / 1460 + doe / 36524 - doe / 146096) / 365).
  set (doy := doe - (365 * yoe + yoe / 4 - yoe / 100)).
  assert (0 <= doy <= 365) as Hdoy.
  { subst doy yoe. Z.div_mod_to_equations; lia. }
  clearbody doy. clear Hdoe.
  set (mp := (5 * doy + 2) / 153).
  assert (0 <= mp <= 11) as Hmp by (subst mp; Z.div_mod_to_equations; lia).
  assert (1 <= doy - (153 * mp + 2) / 5 + 1 <= 31) as Hd
    by (subst mp; Z.div_mod_to_equations; lia).
  clearbody mp.
  destruct (mp <? 10) eqn:E; [apply Z.ltb_lt in E|apply Z.ltb_ge in E]; lia.
Qed.

Lemma civil_increasing (a b : Z) : a < b -> spec.lex3 (civil a) (civil b).
Proof.
  intro H. unfold civil, spec.lex3. cbv zeta.
  set (za := a + 719468). set (zb := b + 719468).
  assert (za < zb) as Hz by (subst za zb; lia). clearbody za zb. clear H a b.
  set (ea := za / 146097). set (eb := zb / 146097).
  set (da := za mod 146097). set (db := zb mod 146097).
  assert (0 <= da < 146097) as Hda by (apply Z.mod_pos_bound; lia).
  assert (0 <= db < 146097) as Hdb by (apply Z.mod_pos_bound; lia).
  assert (ea < eb \/ (ea = eb /\ da < db)) as He.
  { subst ea eb da db. Z.div_mod_to_equations. lia. }
  clearbody ea eb da db. clear Hz za zb.
  set (ya := (da - da / 1460 + da / 36524 - da / 146096) / 365).
  set (yb := (db - db / 1460 + db / 36524 - db / 146096) / 365).
  set (oa := da - (365 * ya + ya / 4 - ya / 100)).
  set (ob := db - (365 * yb + yb / 4 - yb / 100)).
  assert (0 <= ya <= 399 /\ 0 <= oa <= 365) as [Hya Hoa]
    by (subst oa ya; Z.div_mod_to_equations; lia).
  assert (0 <= yb <= 399 /\ 0 <= ob <= 365) as [Hyb Hob]
    by (subst ob yb; Z.div_mod_to_equations; lia).
  assert (ea < eb \/ (ea = eb /\ (ya < yb \/ (ya = yb /\ oa < ob)))) as Hy.
  { destruct He as [He|[He Hd]]; [left; exact He|right; split; [exact He|]].
    assert (ya <= yb) by (subst ya yb; Z.div_mod_to_equations; lia).
    subst oa ob. clearbody ya yb. Z.div_mod_to_equations. lia. }
  clearbody oa ob. clearbody ya yb. clear He Hda Hdb da db.
  set (pa := (5 * oa + 2) / 153). set (pb := (5 * ob + 2) / 153).
  assert (0 <= pa <= 11) as Hpa by (subst pa; Z.div_mod_to_equations; lia).
  assert (0 <= pb <= 11) as Hpb by (subst pb; Z.div_mod_to_equations; lia).
  assert (oa < ob -> pa < pb \/ (pa = pb /\
            oa - (153 * pa + 2) / 5 + 1 < ob - (153 * pb + 2) / 5 + 1)) as Hp.
  { intro Ho. assert (pa <= pb) by (subst pa pb; Z.div_mod_to_equations; lia).
    clearbody pa pb. assert (pa < pb \/ pa = pb) as [ | -> ] by lia; [auto|right].
    split; [reflexivity|lia]. }
  clearbody pa pb.
  generalize dependent (oa - (153 * pa + 2) / 5 + 1). intros dda.
  generalize dependent (ob - (153 * pb + 2) / 5 + 1). intros ddb. intros.
  destruct (Z.ltb_spec pa 10), (Z.ltb_spec pb 10).
  all: repeat match goal with
         | |- context [if ?x <=? ?y then _ else _] => destruct (Z.leb_spec x y)
         end.
  all: lia.
Qed.


End Calendar.

Lemma compare_refl (s : string) : String.compare s s = Eq.
Proof.
  induction s as [|a s IH]; simpl; [reflexivity|].
  unfold Ascii.compare. rewrite N.compare_refl. exact IH.
Qed.

Lemma compare_app (p1 p2 s1 s2 : string) :
  String.length p1 = String.length p2 ->
  String.compare (p1 ++ s1) (p2 ++ s2) =
  match String.compare p1 p2 with
  | Eq => String.compare s1 s2
  | c => c
  end.
Proof.
  revert p2. induction p1 as [|a p1 IH]; intros [|b p2]; simpl;
    try discriminate; [reflexivity|].
  intro H. injection H as H. rewrite (IH p2 H).
  destruct (Ascii.compare a b); reflexivity.
Qed.

Lemma append_length (s t : string) :
  String.length (s ++ t) = String.length s + String.length t.
Proof. induction s as [|a s IH]; simpl; [reflexivity|]. rewrite IH. reflexivity. Qed.

Lemma fixed_length (w : nat) (n : Z) : String.length (fixed w n) = w.
Proof.
  revert n. induction w as [|w IH]; intro n; simpl; [reflexivity|].
  rewrite append_length, IH. simpl. lia.
Qed.

Lemma digit_compare (x y : Z) :
  (0 <= x < 10)%Z -> (0 <= y < 10)%Z ->
  Ascii.compare (digit x) (digit y) = (x ?= y)%Z.
Proof.
  intros Hx Hy. unfold Ascii.compare, digit.
  rewrite !N_ascii_embedding by lia.
  destruct (N.compare_spec (48 + Z.to_N x) (48 + Z.to_N y)),
    (Z.compare_spec x y); try reflexivity; lia.
Qed.

(** The order of two texts of the same width is the order of the numbers. *)
Lemma fixed_compare (w : nat) (a b : Z) :
  (0 <= a < 10 ^ Z.of_nat w)%Z -> (0 <= b < 10 ^ Z.of_nat w)%Z ->
  String.compare (fixed w a) (fixed w b) = (a ?= b)%Z.
Proof.
  revert a b. induction w as [|w IH]; intros a b Ha Hb.
  - simpl in *. assert (a = 0 /\ b = 0)%Z as [-> ->] by lia. reflexivity.
  - rewrite Nat2Z.inj_succ, Z.pow_succ_r in Ha, Hb by lia.
    cbn [fixed]. rewrite compare_app by (rewrite !fixed_length; reflexivity).
    rewrite IH by (Z.div_mod_to_equations; lia).
    simpl. rewrite digit_compare by (apply Z.mod_pos_bound; lia).
    destruct (Z.compare_spec (a / 10) (b / 10)) as [E|E|E];
      destruct (Z.compare_spec (a mod 10) (b mod 10)) as [F|F|F];
      symmetry;
      first [apply Z.compare_eq_iff | apply Z.compare_lt_iff | apply Z.compare_gt_iff];
      Z.div_mod_to_equations; lia.
Qed.

(** One field of a timestamp and its separator, before the rest. *)
Lemma field_lt (w : nat) (a b : Z) (sep r1 r2 : string) :
  (0 <= a < 10 ^ Z.of_nat w)%Z -> (0 <= b < 10 ^ Z.of_nat w)%Z ->
  (a < b)%Z \/ (a = b /\ String.compare r1 r2 = Lt) ->
  String.compare (fixed w a ++ sep ++ r1) (fixed w b ++ sep ++ r2) = Lt.
Proof.
  intros Ha Hb H.
  rewrite compare_app by (rewrite !fixed_length; reflexivity).
  rewrite fixed_compare by assumption.
  destruct H as [H|[-> H]].
  - apply Z.compare_lt_iff in H. rewrite H. reflexivity.
  - rewrite Z.compare_refl, compare_app, compare_refl by reflexivity. exact H.
Qed.

Lemma civil_year_range (days : Z) :
  (-719528 <= days <= 2932896)%Z ->
  let '(y, _, _) := civil days in (0 <= y <= 9999)%Z.
Proof.
  intro H.
  assert (days = -719528 \/ -719528 < days)%Z as [->|Lo] by lia; [vm_compute; split; discriminate|].
  assert (days = 2932896 \/ days < 2932896)%Z as [->|Hi] by lia; [vm_compute; split; discriminate|].
  pose proof (civil_increasing _ _ Lo) as L.
  pose proof (civil_increasing _ _ Hi) as U.
  change (civil (-719528)) with (0, 1, 1)%Z in L.
  change (civil 2932896) with (9999, 12, 31)%Z in U.
  destruct (civil days) as [[y m] d]. unfold spec.lex3 in *. lia.
Qed.

Lemma toISOString_increasing (a b : Z) :
  spec.four_digit_year a -> spec.four_digit_year b -> (a < b)%Z ->
  String.compare (toISOString a) (toISOString b) = Lt.
Proof.
  unfold spec.four_digit_year. intros Ha Hb Hab. unfold toISOString. cbv zeta.
  set (da := (a / 86400000)%Z). set (db := (b / 86400000)%Z).
  set (ta := (a mod 86400000)%Z). set (tb := (b mod 86400000)%Z).
  assert (0 <= ta < 86400000)%Z as Hta by (apply Z.mod_pos_bound; lia).
  assert (0 <= tb < 86400000)%Z as Htb by (apply Z.mod_pos_bound; lia).
  assert (-719528 <= da <= 2932896)%Z as Hda
    by (subst da; Z.div_mod_to_equations; lia).
  assert (-719528 <= db <= 2932896)%Z as Hdb
    by (subst db; Z.div_mod_to_equations; lia).
  assert (da < db \/ (da = db /\ ta < tb))%Z as Hd
    by (subst da db ta tb; Z.div_mod_to_equations; lia).
  clearbody da db ta tb. clear Ha Hb Hab a b.
  pose proof (civil_year_range da Hda) as Ya.
  pose proof (civil_year_range db Hdb) as Yb.
  pose proof (civil_bounds da) as Ba.
  pose proof (civil_bounds db) as Bb.
  assert (spec.lex3 (civil da) (civil db) \/ (civil da = civil db /\ ta < tb)%Z) as Hc.
  { destruct Hd as [Hd|[-> Hd]]; [left; apply civil_increasing; exact Hd|right; auto]. }
  destruct (civil da) as [[ya ma] dda], (civil db) as [[yb mb] ddb].
  unfold spec.lex3 in Hc.
  assert ((0 <=? ya) && (ya <=? 9999) = true)%Z as -> by lia.
  assert ((0 <=? yb) && (yb <=? 9999) = true)%Z as -> by lia.
  set (ha := (ta / 3600000)%Z) in *. set (hb := (tb / 3600000)%Z) in *.
  set (ia := (ta / 60000 mod 60)%Z) in *. set (ib := (tb / 60000 mod 60)%Z) in *.
  set (sa := (ta / 1000 mod 60)%Z) in *. set (sb := (tb / 1000 mod 60)%Z) in *.
  set (xa := (ta mod 1000)%Z) in *. set (xb := (tb mod 1000)%Z) in *.
  assert (0 <= ha < 100 /\ 0 <= ia < 100 /\ 0 <= sa < 100 /\ 0 <= xa < 1000)%Z
    as [Hha [Hia [Hsa Hxa]]]
    by (subst ha ia sa xa; Z.div_mod_to_equations; lia).
  assert (0 <= hb < 100 /\ 0 <= ib < 100 /\ 0 <= sb < 100 /\ 0 <= xb < 1000)%Z
    as [Hhb [Hib [Hsb Hxb]]]
    by (subst hb ib sb xb; Z.div_mod_to_equations; lia).
  assert ((ta < tb)%Z ->
          (ha < hb \/ (ha = hb /\ (ia < ib \/ (ia = ib /\
           (sa < sb \/ (sa = sb /\ xa < xb))))))%Z) as Ht
    by (intro; subst ha hb ia ib sa sb xa xb; Z.div_mod_to_equations; lia).
  clearbody ha hb ia ib sa sb xa xb.
  assert (ya < yb \/ (ya = yb /\ (ma < mb \/ (ma = mb /\ (dda < ddb \/ (dda = ddb /\
          (ha < hb \/ (ha = hb /\ (ia < ib \/ (ia = ib /\
           (sa < sb \/ (sa = sb /\ xa < xb))))))))))))%Z as Lex.
  { destruct Hc as [Hc|[Hc Hlt]].
    - lia.
    - injection Hc as -> -> ->. specialize (Ht Hlt). lia. }
  clear Hc Ht Hd Hta Htb Hda Hdb.
  repeat (apply field_lt; [simpl; lia|simpl; lia|]).
  repeat match goal with
         | H : (_ < _)%Z \/ (_ = _ /\ _) |- (_ < _)%Z \/ _ =>
             destruct H as [H|[-> H]]; [left; exact H|right; split; [reflexivity|]]
         | |- String.compare _ _ = Lt =>
             apply field_lt; [simpl; lia|simpl; lia|]
         end.
  rewrite compare_app by (rewrite !fixed_length; reflexivity).
  rewrite fixed_compare by (simpl; lia).
  apply Z.compare_lt_iff in Lex. rewrite Lex. reflexivity.
Qed.

(** Between year 0 and year 9999 the order of two timestamps as text is
    their order in time. *)
Lemma toISOString_order (a b : Z) :
  spec.four_digit_year a -> spec.four_digit_year b ->
  (String.leb (toISOString a) (toISOString b) = true <-> (a <= b)%Z).
Proof.
  intros Ha Hb. unfold String.leb.
  assert (a < b \/ a = b \/ b < a)%Z as [H|[->|H]] by lia.
  - rewrite (toISOString_increasing a b Ha Hb H). split; [lia|reflexivity].
  - rewrite compare_refl. split; [lia|reflexivity].
  - rewrite String.compare_antisym, (toISOString_increasing b a Hb Ha H).
    simpl. split; [discriminate|lia].
Qed.

(** C2.  With a status filter [getAllTasks] returns exactly the tasks whose
    status equals the value, with a priority filter exactly those whose
    priority equals it, with both exactly those that meet both equalities:
    in table order without [sortBy], reordered with a recognized one.  When
    no task matches, the answer is the empty list and not an error. *)
Theorem getAllTasks_selects_exactly (tbl : table) (st pr so : option string) :
  spec.proper st -> spec.proper pr -> spec.recognized so ->
  exists l,
    getAllTasks (Filters.mk st pr so) tbl = (Ok l, tbl)
    /\ Permutation l (filter (spec.selected st pr) tbl)
    /\ (so = None -> l = filter (spec.selected st pr) tbl)
    /\ ((forall t, In t tbl -> spec.selected st pr t = false) -> l = []).
Proof.
  intros Hst Hpr Hso.
  exists (order_rows (spec.order_of so) (filter (spec.selected st pr) tbl)).
  split; [apply getAllTasks_exec; assumption|].
  split; [apply order_rows_perm|].
  split; [intros ->; reflexivity|].
  intro Hnone.
  assert (filter (spec.selected st pr) tbl = []) as ->.
  { clear -Hnone. induction tbl as [|r tbl IH]; simpl; [reflexivity|].
    rewrite (Hnone r (or_introl eq_refl)). apply IH.
    intros t Ht. apply Hnone. right. exact Ht. }
  destruct (spec.order_of so) as [[c d]|]; reflexivity.
Qed.

Lemma getAllTasks_selects_exactly_witness :
  spec.proper (Some "completed") /\ spec.proper (Some "high")
  /\ spec.recognized (Some "createdAt")
  /\ exists l,
       getAllTasks (Filters.mk (Some "completed") (Some "high") (Some "createdAt"))
         [mkTask "task_1_a" "Buy milk" "" "high" "completed" "2023-12-20T10:30:45.123Z";
          mkTask "task_2_b" "Pay rent" "" "low" "completed" "2023-12-21T08:00:00.000Z"]
       = (Ok l,
          [mkTask "task_1_a" "Buy milk" "" "high" "completed" "2023-12-20T10:30:45.123Z";
           mkTask "task_2_b" "Pay rent" "" "low" "completed" "2023-12-21T08:00:00.000Z"]).
Proof.
  assert (spec.proper (Some "completed")) as H1 by (intro H; discriminate H).
  assert (spec.proper (Some "high")) as H2 by (intro H; discriminate H).
  assert (spec.recognized (Some "createdAt")) as H3.
  { right. exists "createdAt". split; [reflexivity|]. simpl. auto. }
  split; [exact H1|]. split; [exact H2|]. split; [exact H3|].
  destruct (getAllTasks_selects_exactly
              [mkTask "task_1_a" "Buy milk" "" "high" "completed" "2023-12-20T10:30:45.123Z";
               mkTask "task_2_b" "Pay rent" "" "low" "completed" "2023-12-21T08:00:00.000Z"]
              (Some "completed") (Some "high") (Some "createdAt") H1 H2 H3)
    as [l [E _]].
  exists l. exact E.
Defined.

(** C3.  With [sortBy] "createdAt" [getAllTasks] returns the selected tasks
    newest first: every task stands before all tasks whose creation time
    is not later.  With "title", "priority" or "status" it returns them in
    non-decreasing order of that field.  Fields are compared as the stored
    text, character by character; for creation times written by
    [createTask] at clock readings from year 0 to year 9999 this is their
    order in time. *)
Theorem getAllTasks_sorts (tbl : table) (st pr : option string) :
  spec.proper st -> spec.proper pr ->
  let sorted_by so R :=
    exists l,
      getAllTasks (Filters.mk st pr (Some so)) tbl = (Ok l, tbl)
      /\ StronglySorted R l
      /\ Permutation l (filter (spec.selected st pr) tbl) in
  sorted_by "createdAt" spec.newest_first
  /\ sorted_by "title" (spec.ascending title)
  /\ sorted_by "priority" (spec.ascending priority)
  /\ sorted_by "status" (spec.ascending status)
  /\ (forall x y a b,
        x.(createdAt) = toISOString a -> y.(createdAt) = toISOString b ->
        spec.four_digit_year a -> spec.four_digit_year b ->
        (spec.newest_first x y <-> (b <= a)%Z)).
Proof.
  intros Hst Hpr sorted_by. subst sorted_by. cbv beta.
  assert (forall so, In so validation.validSortFields ->
            spec.recognized (Some so)) as Rec.
  { intros so Hin. right. exists so. auto. }
  split; [|split; [|split; [|split]]];
    [| | | |intros x y a b Hx Hy Ha Hb; unfold spec.newest_first;
            rewrite Hx, Hy; apply toISOString_order; assumption].
  all: eexists; split;
    [apply getAllTasks_exec; [assumption|assumption|apply Rec; simpl; auto]|].
  all: split; [|apply order_rows_perm].
  all: cbn [spec.order_of String.eqb Ascii.eqb Bool.eqb column_of_name option_map order_rows].
  - apply (sort_rows_sorted (le_by CcreatedAt DESC)
             (le_by_total _ _) (le_by_trans _ _)).
  - apply (sort_rows_sorted (le_by Ctitle ASC) (le_by_total _ _) (le_by_trans _ _)).
  - apply (sort_rows_sorted (le_by Cpriority ASC) (le_by_total _ _) (le_by_trans _ _)).
  - apply (sort_rows_sorted (le_by Cstatus ASC) (le_by_total _ _) (le_by_trans _ _)).
Qed.

Lemma getAllTasks_sorts_witness :
  spec.proper None
  /\ exists l,
       getAllTasks (Filters.mk None None (Some "createdAt"))
         [mkTask "task_1_a" "Buy milk" "" "high" "completed" "2023-12-20T10:30:45.123Z";
          mkTask "task_2_b" "Pay rent" "" "low" "pending" "2023-12-21T08:00:00.000Z"]
       = (Ok l,
          [mkTask "task_1_a" "Buy milk" "" "high" "completed" "2023-12-20T10:30:45.123Z";
           mkTask "task_2_b" "Pay rent" "" "low" "pending" "2023-12-21T08:00:00.000Z"])
       /\ StronglySorted spec.newest_first l.
Proof.
  assert (spec.proper None) as H by (intro X; discriminate X).
  split; [exact H|].
  destruct (getAllTasks_sorts
              [mkTask "task_1_a" "Buy milk" "" "high" "completed" "2023-12-20T10:30:45.123Z";
               mkTask "task_2_b" "Pay rent" "" "low" "pending" "2023-12-21T08:00:00.000Z"]
              None None H H) as [[l [E [S _]]] _].
  exists l. split; [exact E|exact S].
Defined.

(** ** Create validation *)

Import validation.

Lemma length_zero_empty (s : string) : (String.length s =? 0)%nat = (s =? "").
Proof. destruct s; reflexivity. Qed.

(** The errors of [validateCreateTask], rule by rule. *)
Lemma createTask_errors_by_rule (body : CreateBody.t) :
  createTask_errors body =
  ((if rules.title_missing body then [TITLE_REQUIRED]
    else if rules.title_too_long body then [TITLE_TOO_LONG] else [])
   ++ (if rules.description_not_string body then [DESCRIPTION_NOT_STRING]
       else if rules.description_too_long body then [DESCRIPTION_TOO_LONG] else [])
   ++ (if rules.priority_invalid body then [PRIORITY_INVALID] else []))%list.
Proof.
  destruct body as [t d p].
  unfold createTask_errors, rules.title_missing, rules.title_too_long,
    rules.description_not_string, rules.description_too_long, rules.priority_invalid.
  cbn [CreateBody.title CreateBody.description CreateBody.priority].
  assert ((negb (truthy t) || negb (is_string t) || (trim_length t =? 0)%nat)
          = match t with JStr s => trim s =? "" | _ => true end) as ->.
  { destruct t as [| |b|n|s|l|l]; try reflexivity.
    - cbn. destruct b; reflexivity.
    - cbn. destruct (n =? 0)%Z; reflexivity.
    - cbn [truthy is_string trim_length negb orb].
      rewrite length_zero_empty, orb_false_r.
      destruct s; [reflexivity|]. reflexivity. }
  assert ((200 <? trim_length t)%nat
          = match t with JStr s => (200 <? String.length (trim s))%nat | _ => false end)
    as -> by (destruct t; reflexivity).
  generalize (match t with JStr s => trim s =? "" | _ => true end).
  generalize (match t with
              | JStr s => (200 <? String.length (trim s))%nat
              | _ => false
              end).
  intros c2 c1. unfold VALID_PRIORITIES.
  destruct c1, c2, d as [| |b|n|s|l|l], p as [| |b'|n'|q|l'|l'];
    cbn [is_undefined is_string negb str_length includes app];
    repeat match goal with
           | |- context [if ?c then _ else _] => destruct c
           end;
    reflexivity.
Qed.

Lemma title_rules_exclusive (body : CreateBody.t) :
  rules.title_missing body = true -> rules.title_too_long body = false.
Proof.
  unfold rules.title_missing, rules.title_too_long.
  destruct (CreateBody.title body); try reflexivity.
  intro H. apply String.eqb_eq in H. rewrite H. reflexivity.
Qed.

Lemma description_rules_exclusive (body : CreateBody.t) :
  rules.description_not_string body = true -> rules.description_too_long body = false.
Proof.
  unfold rules.description_not_string, rules.description_too_long.
  destruct (CreateBody.description body); try reflexivity. discriminate.
Qed.

Lemma In_eqb (x : string) (l : list string) :
  In x l <-> existsb (String.eqb x) l = true.
Proof.
  rewrite existsb_exists. split.
  - intro H. exists x. split; [exact H|apply String.eqb_refl].
  - intros [y [H E]]. apply String.eqb_eq in E. subst. exact H.
Qed.

(** C6.  Create validation checks every rule: title required and not
    blank, title at most 200 characters, description a string if present,
    description at most 1000 characters, priority in the enum if present.
    The details list holds the message of a rule exactly when the rule is
    violated; on any violation the answer is one 400 "Validation Error"
    with that list, and no check stops at the first error.  A body with a
    description, no title and priority "bogus" gets one 400 whose details
    name the missing title and the invalid priority. *)
Theorem validateCreateTask_reports_every_violation (body : CreateBody.t) :
  let errors := createTask_errors body in
  (In TITLE_REQUIRED errors <-> rules.title_missing body = true)
  /\ (In TITLE_TOO_LONG errors <-> rules.title_too_long body = true)
  /\ (In DESCRIPTION_NOT_STRING errors <-> rules.description_not_string body = true)
  /\ (In DESCRIPTION_TOO_LONG errors <-> rules.description_too_long body = true)
  /\ (In PRIORITY_INVALID errors <-> rules.priority_invalid body = true)
  /\ (rules.violated body = true ->
      validateCreateTask body
      = Respond (Failure 400 "Validation Error" "Invalid input data" errors))
  /\ (rules.violated body = false ->
      errors = [] /\ exists body', validateCreateTask body = Next body')
  /\ validateCreateTask (CreateBody.mk JUndefined (JStr "x") (JStr "bogus"))
     = Respond (Failure 400 "Validation Error" "Invalid input data"
                  [TITLE_REQUIRED; PRIORITY_INVALID]).
Proof.
  intro errors. subst errors.
  split; [|split; [|split; [|split; [|split; [|split; [|split]]]]]];
    try (rewrite In_eqb); try reflexivity.
  all: unfold validateCreateTask, rules.violated.
  all: rewrite createTask_errors_by_rule.
  all: pose proof (title_rules_exclusive body) as X1.
  all: pose proof (description_rules_exclusive body) as X2.
  all: destruct (rules.title_missing body), (rules.title_too_long body),
         (rules.description_not_string body), (rules.description_too_long body),
         (rules.priority_invalid body);
       try (discriminate (X1 eq_refl)); try (discriminate (X2 eq_refl));
       clear X1 X2.
  all: cbn [app orb List.length Nat.ltb Nat.leb].
  all: try (vm_compute; split; intro; congruence).
  all: try (intros _; reflexivity).
  all: try (intro; discriminate).
  intros _. split; [reflexivity|]. eauto.
Qed.

(** ** Sanitization *)

Lemma strip_angle_length (s : string) :
  String.length (strip_angle s) <= String.length s.
Proof.
  induction s as [|c s IH]; simpl; [lia|].
  destruct ((c =? "<")%char || (c =? ">")%char); simpl; lia.
Qed.

Lemma trimStart_length (s : string) :
  String.length (trimStart s) <= String.length s.
Proof.
  induction s as [|c s IH]; simpl; [lia|].
  destruct (is_white c); simpl; lia.
Qed.

Lemma trimEnd_length (s : string) :
  String.length (trimEnd s) <= String.length s.
Proof.
  induction s as [|c s IH]; simpl; [lia|].
  destruct (trimEnd s); [destruct (is_white c)|]; simpl in *; lia.
Qed.

Lemma trim_length_le (s : string) : String.length (trim s) <= String.length s.
Proof.
  unfold trim. pose proof (trimEnd_length (trimStart s)).
  pose proof (trimStart_length s). lia.
Qed.

(** What create validation does guarantee of the record that is stored:
    the controller is defined on every body let through, the title has at
    most 200 characters, the description at most 1000 and the priority is
    one of the enum. *)
Lemma validated_body_bounds (body body' : CreateBody.t) :
  validateCreateTask body = Next body' ->
  exists d,
    taskController.taskData_of body' = Some d
    /\ String.length (TaskData.title d) <= 200
    /\ String.length (or_else (TaskData.description d) "") <= 1000
    /\ In (or_else (TaskData.priority d) "medium") VALID_PRIORITIES.
Proof.
  unfold validateCreateTask.
  pose proof (createTask_errors_by_rule body) as E.
  destruct (createTask_errors body) as [|e l]; [|discriminate].
  cbn [List.length Nat.ltb Nat.leb]. intro H. injection H as <-.
  destruct body as [t d p].
  unfold rules.title_missing, rules.title_too_long, rules.description_not_string,
    rules.description_too_long, rules.priority_invalid in E.
  cbn [CreateBody.title CreateBody.description CreateBody.priority] in *.
  destruct t as [| |b|n|s|l|l]; try discriminate E.
  destruct (trim s =? ""); [discriminate E|].
  destruct (200 <? String.length (trim s))%nat eqn:L; [discriminate E|].
  apply Nat.ltb_ge in L.
  assert (String.length (strip_angle (trim s)) <= 200) as Ht
    by (pose proof (strip_angle_length (trim s)); lia).
  assert (In (or_else
                (match p with JStr q => Some q | _ => None end) "medium")
             VALID_PRIORITIES
          /\ (p = JUndefined \/ exists q, p = JStr q)) as [Hp Hp'].
  { destruct p as [| |b|n|q|l|l];
      try (destruct d as [| |b'|n'|s'|l'|l']; try destruct (1000 <? _)%nat;
           discriminate E).
    - split; [simpl; auto|auto].
    - split; [|eauto].
      destruct (existsb (String.eqb q) ["low"; "medium"; "high"]) eqn:X.
      + unfold or_else, truthy_text. destruct (q =? "") eqn:Q; [simpl; auto|].
        apply existsb_exists in X. destruct X as [x [Hx Hq]].
        apply String.eqb_eq in Hq. subst. exact Hx.
      + destruct d as [| |b'|n'|s'|l'|l']; try destruct (1000 <? _)%nat;
          discriminate E. }
  destruct d as [| |b'|n'|s'|l'|l']; try discriminate E.
  - destruct Hp' as [->|[q ->]];
      (eexists; split; [reflexivity|]; cbn; repeat split; try lia; auto).
  - destruct (1000 <? String.length s')%nat eqn:L'; [discriminate E|].
    apply Nat.ltb_ge in L'.
    assert (String.length
              (or_else (Some (if negb (s' =? "") then strip_angle (trim s') else s')) "")
            <= 1000) as Hd.
    { unfold or_else, truthy_text.
      destruct (s' =? "") eqn:Q; cbn [negb].
      - rewrite Q. simpl. lia.
      - destruct (strip_angle (trim s') =? ""); [simpl; lia|].
        pose proof (strip_angle_length (trim s')).
        pose proof (trim_length_le s'). lia. }
    cbn [truthy sanitizeString].
    destruct (negb (s' =? ""));
      destruct Hp' as [->|[q ->]];
      (eexists; split; [reflexivity|];
       cbn [TaskData.title TaskData.description TaskData.priority];
       repeat split; auto).
Qed.

(** C7.  A title of angle brackets only passes create validation, its
    trimmed length being 2; sanitization then strips both characters, and
    the task is stored with the empty title. *)
Theorem angle_bracket_title_is_stored_empty :
  let body := CreateBody.mk (JStr "<>") JUndefined JUndefined in
  let env := mkEnv 1703123456789 "0.i" 1703123456790 in
  rules.violated body = false
  /\ validateCreateTask body = Next (CreateBody.mk (JStr "") JUndefined JUndefined)
  /\ exists handler task,
       routes.POST_tasks env body = Some handler
       /\ handler [] = (Success 201 (OneTask task) "Task created successfully" None,
                        [task])
       /\ task.(title) = "".
Proof.
  cbv zeta. split; [reflexivity|]. split; [reflexivity|].
  eexists. eexists. split; [reflexivity|]. split; [vm_compute; reflexivity|].
  reflexivity.
Qed.

(** ** Statement texts *)


Lemma includes_In (l : list string) (v : jsval) :
  includes l v = true -> exists s, v = JStr s /\ In s l.
Proof.
  destruct v; try discriminate. simpl. intro H.
  apply existsb_exists in H. destruct H as [x [Hx E]].
  apply String.eqb_eq in E. subst. eauto.
Qed.

(** A query parameter that passed its check is dropped by the controller
    or is a string of the list it was checked against. *)
Lemma copy_checked (l : list string) (v : jsval) :
  truthy v && negb (includes l v) = false ->
  taskController.copy_if_truthy v = Some None
  \/ exists s, taskController.copy_if_truthy v = Some (Some s) /\ In s l /\ s <> "".
Proof.
  unfold taskController.copy_if_truthy. intro H.
  destruct (truthy v) eqn:T; [|auto]. right.
  destruct (includes l v) eqn:I; [|discriminate].
  apply includes_In in I. destruct I as [s [-> Hs]].
  exists s. repeat split; auto.
  intros ->. discriminate T.
Qed.

Lemma query_errors_nil (q : Query.t) :
  query_errors q = [] ->
  truthy (Query.status q) && negb (includes VALID_STATUSES (Query.status q)) = false
  /\ truthy (Query.priority q) && negb (includes VALID_PRIORITIES (Query.priority q)) = false
  /\ truthy (Query.sortBy q) && negb (includes validSortFields (Query.sortBy q)) = false.
Proof.
  unfold query_errors.
  destruct (truthy (Query.status q) && _), (truthy (Query.priority q) && _),
    (truthy (Query.sortBy q) && _); cbn [app]; intro H;
    try discriminate H; auto.
Qed.

(** The shape of a validated list request: what the controller hands to
    storage holds filters that are strings of the enums and a sort field
    of the allow-list. *)
Lemma validated_filters (q : Query.t) :
  validateQueryParams q = Next q ->
  exists f,
    taskController.filters_of q = Some f
    /\ In (buildOrderByClause (Filters.sortBy f)) sql.ORDER_CLAUSES
    /\ (forall c, Filters.sortBy f = Some c -> In c validSortFields).
Proof.
  unfold validateQueryParams. intro H.
  destruct (query_errors q) eqn:E; [clear H|discriminate H].
  apply query_errors_nil in E. destruct E as [Es [Ep Eo]].
  apply copy_checked in Es, Ep, Eo.
  unfold taskController.filters_of.
  destruct Es as [->|[s [-> _]]], Ep as [->|[p [-> _]]],
    Eo as [->|[o [-> [Ho Ho']]]];
    (eexists; split; [reflexivity|]);
    cbn [Filters.sortBy];
    (split; [|intros c X; try discriminate X; congruence]).
  all: unfold buildOrderByClause; cbn [truthy_text].
  all: try (rewrite In_eqb; reflexivity).
  all: simpl in Ho; intuition (subst; rewrite In_eqb; reflexivity).
Qed.

Lemma where_clause_fixed (f : Filters.t) :
  In (whereClause (buildWhereClause f)) sql.WHERE_CLAUSES
  /\ params (buildWhereClause f) = sql.bound_values f
  /\ sql.holes (whereClause (buildWhereClause f))
     = List.length (params (buildWhereClause f)).
Proof.
  destruct f as [st pr so].
  unfold buildWhereClause, sql.bound_values, sql.holes.
  cbn [Filters.status Filters.priority].
  destruct (truthy_text st) as [s|], (truthy_text pr) as [p|];
    cbn [app whereClause params List.length Nat.ltb Nat.leb];
    (split; [apply In_eqb; reflexivity|]); split; reflexivity.
Qed.

(** Going through an operation of the storage layer, statement by
    statement. *)
Ltac issued :=
  repeat first
    [ apply sql.uses_ret
    | apply sql.uses_throw
    | apply sql.uses_bind; [|intro]
    | apply sql.uses_exec
    | progress unfold runQuery, getQuery, allQuery, ensureInitialized, getTaskById
    | match goal with
      | |- sql.uses _ (if ?c then _ else _) => destruct c
      | |- sql.uses _ (match ?x with _ => _ end) => destruct x
      end ].



(** ** Empty filters *)

Lemma filter_all {A} (l : list A) : filter (fun _ => true) l = l.
Proof. induction l as [|x l IH]; simpl; [reflexivity|]. f_equal. exact IH. Qed.

(** C10.  A status or priority query parameter that is the empty string
    adds no validation error and is dropped before storage: the
    controller copies no such property into the filters it hands to
    [getAllTasks], which are those of a request without the parameter, and
    the list route answers as it does when the parameter is absent.  With
    both filters empty a request passes validation as soon as its [sortBy]
    does, and without [sortBy] the answer lists every task: the empty
    string is no equality filter. *)
Theorem empty_filter_is_no_filter (st pr so : jsval) :
  query_errors (Query.mk (JStr "") pr so) = query_errors (Query.mk JUndefined pr so)
  /\ query_errors (Query.mk st (JStr "") so) = query_errors (Query.mk st JUndefined so)
  /\ routes.GET_tasks (Query.mk (JStr "") pr so)
     = routes.GET_tasks (Query.mk JUndefined pr so)
  /\ routes.GET_tasks (Query.mk st (JStr "") so)
     = routes.GET_tasks (Query.mk st JUndefined so)
  /\ taskController.filters_of (Query.mk (JStr "") pr so)
     = taskController.filters_of (Query.mk JUndefined pr so)
  /\ taskController.filters_of (Query.mk st (JStr "") so)
     = taskController.filters_of (Query.mk st JUndefined so)
  /\ (forall f, taskController.filters_of (Query.mk (JStr "") pr so) = Some f ->
        Filters.status f = None)
  /\ (forall f, taskController.filters_of (Query.mk st (JStr "") so) = Some f ->
        Filters.priority f = None)
  /\ (query_errors (Query.mk JUndefined JUndefined so) = [] ->
      validateQueryParams (Query.mk (JStr "") (JStr "") so)
      = Next (Query.mk (JStr "") (JStr "") so))
  /\ forall tbl, exists handler,
       routes.GET_tasks (Query.mk (JStr "") (JStr "") JUndefined) = Some handler
       /\ handler tbl
          = (Success 200 (TaskList tbl)
               ("Retrieved " ++ decimal (Z.of_nat (List.length tbl)) ++ " task(s)")
               (Some (List.length tbl)), tbl).
Proof.
  split; [reflexivity|]. split; [reflexivity|].
  split.
  { unfold routes.GET_tasks, validateQueryParams.
    change (query_errors (Query.mk (JStr "") pr so))
      with (query_errors (Query.mk JUndefined pr so)).
    destruct (0 <? List.length (query_errors (Query.mk JUndefined pr so)))%nat;
      reflexivity. }
  split.
  { unfold routes.GET_tasks, validateQueryParams.
    change (query_errors (Query.mk st (JStr "") so))
      with (query_errors (Query.mk st JUndefined so)).
    destruct (0 <? List.length (query_errors (Query.mk st JUndefined so)))%nat;
      reflexivity. }
  split; [reflexivity|]. split; [reflexivity|].
  split.
  { unfold taskController.filters_of.
    cbn [Query.status Query.priority Query.sortBy].
    change (taskController.copy_if_truthy (JStr "")) with (Some (@None string)).
    intros f H.
    destruct (taskController.copy_if_truthy pr), (taskController.copy_if_truthy so);
      try discriminate H.
    injection H as <-. reflexivity. }
  split.
  { unfold taskController.filters_of.
    cbn [Query.status Query.priority Query.sortBy].
    change (taskController.copy_if_truthy (JStr "")) with (Some (@None string)).
    intros f H.
    destruct (taskController.copy_if_truthy st), (taskController.copy_if_truthy so);
      try discriminate H.
    injection H as <-. reflexivity. }
  split.
  { unfold validateQueryParams.
    change (query_errors (Query.mk (JStr "") (JStr "") so))
      with (query_errors (Query.mk JUndefined JUndefined so)).
    intros ->. reflexivity. }
  intro tbl. eexists. split; [reflexivity|].
  unfold taskController.try_catch.
  rewrite getAllTasks_exec; try (intro X; discriminate X); [|left; reflexivity].
  cbn [spec.order_of order_rows].
  rewrite (filter_ext _ (fun _ => true)) by reflexivity.
  rewrite filter_all. reflexivity.
Qed.

(** ** Identifiers *)

Lemma uint_digits (d : Decimal.uint) :
  forallb_string is_digit (NilEmpty.string_of_uint d) = true.
Proof. induction d; simpl; auto. Qed.

Lemma decimal_digits (z : Z) :
  (0 <= z)%Z ->
  forallb_string is_digit (decimal z) = true /\ decimal z <> "".
Proof.
  intro H. unfold decimal.
  destruct z as [|p|p]; [split; [reflexivity|discriminate]| |lia].
  cbn [Z.to_int NilZero.string_of_int].
  pose proof (uint_digits (Pos.to_uint p)) as D.
  pose proof (DecimalPos.Unsigned.to_uint_nonnil p) as N.
  unfold NilZero.string_of_uint.
  destruct (Pos.to_uint p); try (elim N; reflexivity);
    (split; [exact D|discriminate]).
Qed.

Lemma take_length (n : nat) (s : string) : String.length (take n s) <= n.
Proof.
  revert s. induction n as [|n IH]; intros [|c s]; simpl; try lia.
  specialize (IH s). lia.
Qed.

Lemma take_forallb (p : ascii -> bool) (n : nat) (s : string) :
  forallb_string p s = true -> forallb_string p (take n s) = true.
Proof.
  revert s. induction n as [|n IH]; intros [|c s]; simpl; auto.
  intro H. apply andb_true_iff in H. destruct H as [-> H]. simpl. auto.
Qed.

Lemma take_nonempty (n : nat) (s : string) :
  s <> "" -> take (S n) s <> "".
Proof. destruct s; [congruence|discriminate]. Qed.

Lemma take_length_min (n : nat) (s : string) :
  String.length (take n s) = Nat.min n (String.length s).
Proof.
  revert s. induction n as [|n IH]; intros [|c s]; simpl; try reflexivity.
  rewrite IH. reflexivity.
Qed.

(** The suffix of an id: empty for the text "0", else the first digits
    after "0.", nine at most. *)
Lemma suffix_of_random (r : string) :
  radix36_text r = true ->
  forallb_string is_lower_alnum (substr 2 9 r) = true
  /\ (r = "0" <-> substr 2 9 r = "").
Proof.
  unfold radix36_text, substr. intro H.
  apply orb_true_iff in H. destruct H as [H|H].
  - apply String.eqb_eq in H. subst r. split; [reflexivity|]. split; reflexivity.
  - apply andb_true_iff in H. destruct H as [H A].
    apply andb_true_iff in H. destruct H as [P N].
    apply negb_true_iff, String.eqb_neq in N.
    split; [apply take_forallb, A|]. split.
    + intros ->. discriminate P.
    + intro E. elim (take_nonempty 8 _ N). exact E.
Qed.

Lemma span_digits (ds rest : string) :
  forallb_string is_digit ds = true ->
  span is_digit (ds ++ String "_" rest) = (ds, String "_" rest).
Proof.
  induction ds as [|c ds IH]; simpl; [reflexivity|].
  intro H. apply andb_true_iff in H. destruct H as [-> H].
  rewrite (IH H). reflexivity.
Qed.

Lemma strip_prefix_task (s : string) :
  strip_prefix "task_" ("task_" ++ s) = Some s.
Proof. unfold strip_prefix. destruct s; reflexivity. Qed.

Lemma id_pattern_generated (ds suffix : string) :
  forallb_string is_digit ds = true -> ds <> "" ->
  forallb_string is_lower_alnum suffix = true -> suffix <> "" ->
  id_pattern ("task_" ++ ds ++ "_" ++ suffix) = true.
Proof.
  intros D Dn S Sn. unfold id_pattern.
  rewrite strip_prefix_task.
  change (ds ++ "_" ++ suffix) with (ds ++ String "_" suffix).
  rewrite (span_digits ds suffix D).
  apply String.eqb_neq in Dn, Sn. rewrite Dn, Sn, S. reflexivity.
Qed.

Lemma unique_ids_snoc (tbl : table) (t : Task) :
  unique_ids tbl = true -> existsb (has_id t.(id)) tbl = false ->
  unique_ids (tbl ++ [t])%list = true.
Proof.
  induction tbl as [|r tbl IH]; simpl; [reflexivity|].
  intros U F. apply andb_true_iff in U. destruct U as [Ur U].
  apply orb_false_iff in F. destruct F as [Fr F].
  rewrite existsb_app, (IH U F). simpl.
  apply negb_true_iff in Ur. rewrite Ur.
  unfold has_id in *. rewrite String.eqb_sym, Fr. reflexivity.
Qed.

Lemma unique_ids_filter (p : Task -> bool) (tbl : table) :
  unique_ids tbl = true -> unique_ids (filter p tbl) = true.
Proof.
  induction tbl as [|r tbl IH]; simpl; [reflexivity|].
  intro U. apply andb_true_iff in U. destruct U as [Ur U].
  destruct (p r); [|apply IH; exact U].
  simpl. rewrite (IH U), andb_true_r.
  apply negb_true_iff in Ur. apply negb_true_iff.
  destruct (existsb (has_id (id r)) (filter p tbl)) eqn:E; [|reflexivity].
  apply existsb_exists in E. destruct E as [x [Hx Ex]].
  apply filter_In in Hx. destruct Hx as [Hx _].
  rewrite <- Ur. symmetry. apply existsb_exists. eauto.
Qed.

Lemma unique_ids_map (g : Task -> Task) (tbl : table) :
  (forall t, (g t).(id) = t.(id)) ->
  unique_ids (map g tbl) = unique_ids tbl.
Proof.
  intro G. induction tbl as [|r tbl IH]; simpl; [reflexivity|].
  rewrite IH, G. f_equal. f_equal.
  clear IH. induction tbl as [|x tbl IH]; simpl; [reflexivity|].
  rewrite IH. unfold has_id. rewrite G. reflexivity.
Qed.

(** X10.  The primary key holds of every table the storage layer leaves:
    if no two rows share an id, no two do after [createTask],
    [updateTaskStatus] and [deleteTask], whatever their arguments and
    whether they resolve or reject. *)
Lemma primary_key_kept (tbl : table) :
  unique_ids tbl = true ->
  (forall env d, unique_ids (snd (createTask env d tbl)) = true)
  /\ (forall i v, unique_ids (snd (updateTaskStatus i v tbl)) = true)
  /\ (forall i, unique_ids (snd (deleteTask i tbl)) = true).
Proof.
  intro U. split; [|split].
  - intros env d. rewrite createTask_insert. cbv zeta.
    destruct (check Cpriority (priority (newTask env d))); [|exact U].
    destruct (existsb (has_id (id (newTask env d))) tbl) eqn:E; [exact U|].
    apply unique_ids_snoc; assumption.
  - intros i v. rewrite updateTaskStatus_map. cbv zeta.
    destruct (existsb (has_id i) tbl); [|exact U].
    rewrite getTaskById_find. cbn [snd].
    rewrite unique_ids_map; [exact U|].
    intro t. destruct (has_id i t); reflexivity.
  - intro i. rewrite deleteTask_filter.
    destruct (find (has_id i) tbl); [|exact U].
    apply unique_ids_filter. exact U.
Qed.

(** C9, as stated, fails: the random value 1/2 is 18/36, which
    [toString(36)] prints as "0.i", and the suffix of the id is the single
    character "i". *)
Lemma generateId_suffix_shorter_than_nine :
  radix36_text "0.i" = true
  /\ generateId 1703123456789 "0.i" = "task_1703123456789_i"
  /\ String.length (substr 2 9 "0.i") <> 9.
Proof. split; [reflexivity|]. split; [reflexivity|]. vm_compute. discriminate. Qed.

(** The random value zero prints as "0": the suffix is empty and id
    validation rejects the id. *)
Lemma generateId_zero_random :
  generateId 1703123456789 "0" = "task_1703123456789_"
  /\ isValidId (JStr (generateId 1703123456789 "0")) = false.
Proof. split; reflexivity. Qed.

(** C9, amended.  A generated id is "task_", the clock in milliseconds in
    decimal digits, "_" and a suffix.  The suffix is the beginning of the
    digits that [toString(36)] prints after "0." for the random number:
    nine of them, or all when fewer are printed; it consists of characters
    of [[a-z0-9]].  When the random number is not zero the suffix is not
    empty and the id matches the pattern of id validation.  A creation
    that succeeds has an id that no stored task has, so that the ids of
    the table stay distinct. *)
Theorem generateId_shape (now : Z) (random : string) :
  (0 <= now)%Z -> radix36_text random = true ->
  exists suffix,
    generateId now random = "task_" ++ decimal now ++ "_" ++ suffix
    /\ forallb_string is_digit (decimal now) = true
    /\ suffix = take 9 (skip 2 random)
    /\ String.length suffix = Nat.min 9 (String.length (skip 2 random))
    /\ forallb_string is_lower_alnum suffix = true
    /\ (random <> "0" ->
        suffix <> "" /\ isValidId (JStr (generateId now random)) = true)
    /\ (forall env d tbl task tbl',
          unique_ids tbl = true ->
          createTask env d tbl = (Ok task, tbl') ->
          unique_ids tbl' = true /\ forall t, In t tbl -> t.(id) <> task.(id)).
Proof.
  intros Hnow Hr. exists (substr 2 9 random).
  destruct (decimal_digits now Hnow) as [D Dn].
  destruct (suffix_of_random random Hr) as [S Z].
  split; [reflexivity|]. split; [exact D|]. split; [reflexivity|].
  split; [apply take_length_min|]. split; [exact S|]. split.
  - intro R0.
    assert (substr 2 9 random <> "") as Sn by (intro E; apply R0, Z, E).
    split; [exact Sn|]. unfold isValidId, generateId.
    rewrite (id_pattern_generated _ _ D Dn S Sn). reflexivity.
  - intros env d tbl task tbl' U. rewrite createTask_insert. cbv zeta.
    destruct (check Cpriority (priority (newTask env d))); [|discriminate].
    destruct (existsb (has_id (id (newTask env d))) tbl) eqn:E; [discriminate|].
    cbn [andb negb]. intro H. injection H as <- <-.
    split; [apply unique_ids_snoc; assumption|].
    apply absent_existsb. exact E.
Qed.

Lemma generateId_shape_witness :
  (0 <= 1703123456789)%Z /\ radix36_text "0.i" = true
  /\ exists suffix,
       generateId 1703123456789 "0.i" = "task_1703123456789_" ++ suffix
       /\ isValidId (JStr (generateId 1703123456789 "0.i")) = true.
Proof.
  split; [lia|]. split; [reflexivity|].
  destruct (generateId_shape 1703123456789 "0.i") as [suffix [G [_ [_ [_ [_ [V _]]]]]]];
    [lia|reflexivity|].
  exists suffix. split; [exact G|]. apply V. discriminate.
Defined.

(** * Further properties of the code *)

(** ** Query validation *)

Lemma includes_iff (l : list string) (v : jsval) :
  includes l v = true <-> exists s, v = JStr s /\ In s l.
Proof.
  split; [apply includes_In|].
  intros [s [-> H]]. simpl. apply existsb_exists. exists s.
  split; [exact H|apply String.eqb_refl].
Qed.

Lemma acceptable_iff (l : list string) (v : jsval) :
  truthy v && negb (includes l v) = false <-> props.acceptable l v.
Proof.
  unfold props.acceptable. rewrite <- includes_iff.
  destruct (truthy v), (includes l v); simpl; intuition discriminate.
Qed.

(** X1.  Query validation checks the three parameters independently: the
    details list holds the message of a parameter exactly when the
    parameter is truthy and not a string of its enum.  Any violation gives
    one 400 with the whole list; otherwise the query passes unchanged. *)
Theorem validateQueryParams_reports_every_violation (q : Query.t) :
  let errors := query_errors q in
  (In STATUS_FILTER_INVALID errors
   <-> ~ props.acceptable VALID_STATUSES (Query.status q))
  /\ (In PRIORITY_FILTER_INVALID errors
      <-> ~ props.acceptable VALID_PRIORITIES (Query.priority q))
  /\ (In SORT_FIELD_INVALID errors
      <-> ~ props.acceptable validSortFields (Query.sortBy q))
  /\ (errors <> [] ->
      validateQueryParams q
      = Respond (Failure 400 "Validation Error" "Invalid query parameters" errors))
  /\ (errors = [] -> validateQueryParams q = Next q).
Proof.
  intro errors. subst errors.
  rewrite <- !acceptable_iff. rewrite !In_eqb.
  unfold validateQueryParams, query_errors.
  destruct (truthy (Query.status q) && _), (truthy (Query.priority q) && _),
    (truthy (Query.sortBy q) && _); cbn [app List.length Nat.ltb Nat.leb];
    (split; [vm_compute; split; intro; congruence|]);
    (split; [vm_compute; split; intro; congruence|]);
    (split; [vm_compute; split; intro; congruence|]);
    (split; intro H;
     [first [reflexivity | elim H; reflexivity]
     |first [discriminate H | reflexivity]]).
Qed.

(** ** Task ids *)

Lemma strip_prefix_app (pre s r : string) :
  strip_prefix pre s = Some r -> s = pre ++ r.
Proof.
  unfold strip_prefix. destruct (String.prefix pre s) eqn:P; [|discriminate].
  intro H. injection H as <-. revert s P.
  induction pre as [|a pre IH]; intros s P; [reflexivity|].
  destruct s as [|b s]; [discriminate|]. simpl in P.
  destruct (ascii_dec a b) as [->|]; [|discriminate].
  simpl. f_equal. apply IH. exact P.
Qed.

Lemma span_app (p : ascii -> bool) (s a b : string) :
  span p s = (a, b) -> s = a ++ b /\ forallb_string p a = true.
Proof.
  revert a b. induction s as [|c s IH]; simpl; intros a b H.
  - injection H as <- <-. auto.
  - destruct (p c) eqn:E.
    + destruct (span p s) as [a' b']. injection H as <- <-.
      destruct (IH a' b' eq_refl) as [-> F]. simpl. rewrite E. auto.
    + injection H as <- <-. auto.
Qed.

(** X2.  [isValidId] accepts exactly the strings "task_", one or more
    decimal digits, "_" and one or more characters of [[a-z0-9]]; nothing
    that is not a string is a valid id. *)
Theorem isValidId_exactly_pattern (v : jsval) :
  isValidId v = true <->
  exists digits suffix,
    v = JStr ("task_" ++ digits ++ "_" ++ suffix)
    /\ digits <> "" /\ forallb_string is_digit digits = true
    /\ suffix <> "" /\ forallb_string is_lower_alnum suffix = true.
Proof.
  split.
  - destruct v as [| |b|n|s|l|l]; try discriminate. unfold isValidId, id_pattern.
    intro H. apply andb_true_iff in H. destruct H as [_ H].
    destruct (strip_prefix "task_" s) as [r|] eqn:P; [|discriminate].
    apply strip_prefix_app in P. subst s.
    destruct (span is_digit r) as [ds rest] eqn:Sp.
    apply span_app in Sp. destruct Sp as [-> D].
    apply andb_true_iff in H. destruct H as [Dn H].
    destruct rest as [|c suffix]; [discriminate|].
    apply andb_true_iff in H. destruct H as [H F].
    apply andb_true_iff in H. destruct H as [C Sn].
    apply Ascii.eqb_eq in C. subst c.
    exists ds, suffix. repeat split; auto.
    + intros ->. discriminate Dn.
    + intros ->. discriminate Sn.
  - intros [ds [suffix [-> [Dn [D [Sn F]]]]]].
    unfold isValidId. rewrite (id_pattern_generated ds suffix D Dn F Sn).
    reflexivity.
Qed.

(** ** Status-update validation *)

(** X3.  Status-update validation lets a request through exactly when the
    id is valid and the status is a boolean or the string "pending" or
    "completed"; what goes on to the controller is then a boolean, true for
    "completed" and false for "pending".  Otherwise it answers one 400
    whose details name the invalid id, the missing status (undefined or
    null) and the status of a wrong type or value, each exactly when it
    applies. *)
Theorem validateUpdateTaskStatus_decides (id status : jsval) :
  (forall v, validateUpdateTaskStatus id status = Next v <->
             isValidId id = true
             /\ exists b, v = JBool b /\ props.names_status status b)
  /\ (forall r, validateUpdateTaskStatus id status = Respond r ->
        exists details,
          r = Failure 400 "Validation Error" "Invalid input data" details
          /\ (In INVALID_ID details <-> isValidId id = false)
          /\ (In STATUS_REQUIRED details <-> is_nullish status = true)
          /\ (In STATUS_INVALID details <->
              is_nullish status = false
              /\ forall b, ~ props.names_status status b)).
Proof.
  set (E := if isValidId id then [] else [INVALID_ID]).
  assert ((is_nullish status = true /\ (forall b, ~ props.names_status status b)
           /\ updateTaskStatus_checks id status = ((E ++ [STATUS_REQUIRED])%list, status))
          \/ (exists b, props.names_status status b /\ is_nullish status = false
                /\ updateTaskStatus_checks id status = (E, JBool b))
          \/ (is_nullish status = false /\ (forall b, ~ props.names_status status b)
              /\ updateTaskStatus_checks id status = ((E ++ [STATUS_INVALID])%list, status)))
    as Class.
  { unfold updateTaskStatus_checks, props.names_status. subst E.
    assert (forall (c : bool) (x : string),
              (if negb c then ([] ++ [x])%list else []) = if c then [] else [x]) as ->
      by (intros [] x; reflexivity).
    destruct status as [| |b|n|s|l|l]; cbn [is_nullish is_boolean is_string andb].
    - left. repeat split. intros b H. intuition discriminate.
    - left. repeat split. intros b H. intuition discriminate.
    - right. left. exists b. auto.
    - right. right. repeat split. intros b H. intuition discriminate.
    - destruct (String.eqb_spec s "pending") as [->|N1];
        [|destruct (String.eqb_spec s "completed") as [->|N2]].
      + right. left. exists false. auto.
      + right. left. exists true. auto.
      + right. right. simpl. apply String.eqb_neq in N1, N2.
        rewrite N1, N2. simpl. repeat split.
        apply String.eqb_neq in N1, N2.
        intros b H. repeat (destruct H as [H|H]); try discriminate H;
          destruct H as [H _]; congruence.
    - right. right. repeat split. intros b H. intuition discriminate.
    - right. right. repeat split. intros b H. intuition discriminate. }
  assert (forall b b', props.names_status status b -> props.names_status status b' ->
            b = b') as Uniq.
  { unfold props.names_status. intros b b' H H'.
    destruct H as [H|[[H ->]|[H ->]]], H' as [H'|[[H' ->]|[H' ->]]];
      congruence. }
  unfold validateUpdateTaskStatus.
  destruct Class as [[Nu [No ->]]|[[b [Na [Nu ->]]]|[Nu [No ->]]]]; subst E;
    destruct (isValidId id); cbn [app List.length Nat.ltb Nat.leb].
  all: split;
    [intro v; split;
     [intro H; try discriminate H
     |intros [V [b0 [-> H]]]; try discriminate V; try (elim (No b0 H))]
    |intros r H;
     first
       [discriminate H
       |injection H as <-; eexists; (split; [reflexivity|]);
        rewrite !In_eqb; rewrite Nu; vm_compute;
        repeat split; try congruence; try discriminate;
        try (intros [_ H]; elim (H b Na))]].
  all: try (intros [X _]; discriminate X); try exact No.
  - injection H as <-. split; [reflexivity|]. eauto.
  - rewrite (Uniq b0 b H Na). reflexivity.
Qed.

(** ** The storage operations on stored and absent ids *)

Lemma existsb_stored (tbl : table) (t : Task) :
  In t tbl -> existsb (has_id t.(id)) tbl = true.
Proof.
  intro H. apply existsb_exists. exists t. split; [exact H|apply has_id_own].
Qed.

Lemma filter_none (i : string) (tbl : table) :
  existsb (has_id i) tbl = false ->
  filter (fun r => negb (has_id i r)) tbl = tbl.
Proof.
  induction tbl as [|r tbl IH]; simpl; [reflexivity|].
  intro H. apply orb_false_iff in H. destruct H as [E H].
  rewrite E. simpl. f_equal. apply IH. exact H.
Qed.

Lemma existsb_after_delete (i : string) (tbl : table) :
  existsb (has_id i) (filter (fun r => negb (has_id i r)) tbl) = false.
Proof.
  induction tbl as [|r tbl IH]; simpl; [reflexivity|].
  destruct (has_id i r) eqn:E; simpl; [exact IH|].
  rewrite E. exact IH.
Qed.

(** The update on a stored id, for any value given as status. *)
Lemma updateTaskStatus_stored (tbl : table) (t : Task) (v : jsval) :
  unique_ids tbl = true -> In t tbl ->
  let t' := props.with_status t (if truthy v then "completed" else "pending") in
  updateTaskStatus t.(id) v tbl
  = (Ok t', map (fun r => if has_id t.(id) r then t' else r) tbl).
Proof.
  intros U Hin t'.
  rewrite updateTaskStatus_map. cbv zeta.
  rewrite (existsb_stored tbl t Hin).
  rewrite (map_ext_in _ (fun r => if has_id t.(id) r then t' else r)).
  - rewrite getTaskById_find.
    rewrite (find_map_same_id (id t) (fun r => if has_id (id t) r then t' else r)).
    + rewrite (find_stored tbl t U Hin). cbn [option_map].
      rewrite has_id_own. reflexivity.
    + intro r. destruct (has_id (id t) r) eqn:E; [|reflexivity].
      apply String.eqb_eq in E. subst t'. simpl. congruence.
  - intros r Hr. destruct (has_id (id t) r) eqn:E; [|reflexivity].
    apply String.eqb_eq in E.
    rewrite (unique_ids_inj tbl r t U Hr Hin E). reflexivity.
Qed.

Lemma updateTaskStatus_absent (tbl : table) (i : string) (v : jsval) :
  existsb (has_id i) tbl = false ->
  updateTaskStatus i v tbl = (Throw NotFound, tbl).
Proof. intro A. rewrite updateTaskStatus_map. cbv zeta. rewrite A. reflexivity. Qed.

(** X4.  The storage layer tests the status for truthiness: on a stored id
    any truthy value, the string "pending" among them, gives "completed"
    and any falsy value "pending", nothing else of the table changing; on
    an absent id the update fails with "Task not found" and the table is as
    before. *)
Theorem updateTaskStatus_by_truthiness (tbl : table) (i : string) (v : jsval) :
  unique_ids tbl = true ->
  (forall t, In t tbl -> t.(id) = i ->
     let t' := props.with_status t (if truthy v then "completed" else "pending") in
     updateTaskStatus i v tbl
     = (Ok t', map (fun r => if has_id i r then t' else r) tbl))
  /\ ((forall t, In t tbl -> t.(id) <> i) ->
      updateTaskStatus i v tbl = (Throw NotFound, tbl))
  /\ updateTaskStatus i (JStr "pending") tbl = updateTaskStatus i (JBool true) tbl.
Proof.
  intro U. split; [|split].
  - intros t Hin <-. apply updateTaskStatus_stored; assumption.
  - intro A. apply updateTaskStatus_absent, absent_existsb, A.
  - rewrite !updateTaskStatus_map. reflexivity.
Qed.

Lemma updateTaskStatus_by_truthiness_witness :
  unique_ids [mkTask "task_1_a" "Buy milk" "" "low" "pending" "2023-12-20T10:30:45.123Z"] = true
  /\ updateTaskStatus "task_1_a" (JStr "pending")
       [mkTask "task_1_a" "Buy milk" "" "low" "pending" "2023-12-20T10:30:45.123Z"]
     = updateTaskStatus "task_1_a" (JBool true)
         [mkTask "task_1_a" "Buy milk" "" "low" "pending" "2023-12-20T10:30:45.123Z"].
Proof.
  split; [reflexivity|].
  apply (updateTaskStatus_by_truthiness
           [mkTask "task_1_a" "Buy milk" "" "low" "pending" "2023-12-20T10:30:45.123Z"]
           "task_1_a" (JNum 0) eq_refl).
Defined.

(** X5.  Updating a status twice with the same value is the same as doing
    it once: the second call returns what the first returned and leaves the
    table the first left. *)
Theorem updateTaskStatus_idempotent (tbl : table) (i : string) (v : jsval) :
  updateTaskStatus i v (snd (updateTaskStatus i v tbl)) = updateTaskStatus i v tbl.
Proof.
  rewrite (updateTaskStatus_map i v tbl). cbv zeta.
  set (s := if truthy v then "completed" else "pending").
  set (g := fun t => if has_id i t then set_field Cstatus s t else t).
  assert (forall t, (g t).(id) = t.(id)) as G
    by (intro t; subst g; cbv beta; destruct (has_id i t); reflexivity).
  assert (forall l, existsb (has_id i) (map g l) = existsb (has_id i) l) as X.
  { induction l as [|r l IH]; simpl; [reflexivity|].
    rewrite IH. unfold has_id at 1. rewrite G. reflexivity. }
  destruct (existsb (has_id i) tbl) eqn:E.
  - rewrite getTaskById_find. cbn [snd].
    rewrite updateTaskStatus_map. cbv zeta. fold s. fold g.
    rewrite X, E, map_map.
    rewrite (map_ext (fun t => g (g t)) g); [apply getTaskById_find|].
    intro t. subst g. cbv beta.
    destruct (has_id i t) eqn:H; [|rewrite H; reflexivity].
    assert (has_id i (set_field Cstatus s t) = true) as -> by exact H.
    reflexivity.
  - cbn [snd]. rewrite updateTaskStatus_map. cbv zeta. rewrite E. reflexivity.
Qed.




(** X8.  Once [deleteTask] has returned a task, its id is gone: fetching
    it, deleting it again and updating its status all fail with "Task not
    found" and leave the table as it is. *)
Theorem deleted_id_is_not_found (tbl : table) (i : string) (t : Task) (tbl' : table) :
  deleteTask i tbl = (Ok t, tbl') ->
  getTaskById i tbl' = (Throw NotFound, tbl')
  /\ deleteTask i tbl' = (Throw NotFound, tbl')
  /\ forall v, updateTaskStatus i v tbl' = (Throw NotFound, tbl').
Proof.
  rewrite deleteTask_filter.
  destruct (find (has_id i) tbl); [|discriminate].
  intro H. injection H as _ <-.
  split; [|split].
  - rewrite getTaskById_find, find_after_delete. reflexivity.
  - rewrite deleteTask_filter, find_after_delete. reflexivity.
  - intro v. apply updateTaskStatus_absent, existsb_after_delete.
Qed.

Lemma deleted_id_is_not_found_witness :
  getTaskById "task_1_a" [] = (Throw NotFound, []).
Proof.
  apply (deleted_id_is_not_found
           [mkTask "task_1_a" "Buy milk" "" "low" "completed" "2023-12-20T10:30:45.123Z"]
           "task_1_a"
           (mkTask "task_1_a" "Buy milk" "" "low" "completed" "2023-12-20T10:30:45.123Z")
           [] eq_refl).
Defined.

(** ** What the storage layer keeps *)

Lemma primary_key_kept_witness :
  unique_ids [mkTask "task_1_a" "Buy milk" "" "low" "pending" "2023-12-20T10:30:45.123Z"] = true
  /\ unique_ids
       (snd (deleteTask "task_1_a"
               [mkTask "task_1_a" "Buy milk" "" "low" "pending" "2023-12-20T10:30:45.123Z"]))
     = true.
Proof.
  split; [reflexivity|].
  apply (primary_key_kept
           [mkTask "task_1_a" "Buy milk" "" "low" "pending" "2023-12-20T10:30:45.123Z"]
           eq_refl).
Defined.

Lemma checked_check (t : Task) :
  props.checked t = check Cpriority t.(priority) && check Cstatus t.(status).
Proof. reflexivity. Qed.

(** X11.  The CHECK constraints hold of every table the storage layer
    leaves: if every row has a priority of low, medium, high and a status
    of pending, completed, so has every row after [createTask],
    [updateTaskStatus] and [deleteTask], whatever their arguments. *)
Theorem checks_kept (tbl : table) :
  forallb props.checked tbl = true ->
  (forall env d, forallb props.checked (snd (createTask env d tbl)) = true)
  /\ (forall i v, forallb props.checked (snd (updateTaskStatus i v tbl)) = true)
  /\ (forall i, forallb props.checked (snd (deleteTask i tbl)) = true).
Proof.
  intro C. split; [|split].
  - intros env d. rewrite createTask_insert. cbv zeta.
    destruct (check Cpriority (priority (newTask env d))) eqn:P; [|exact C].
    destruct (existsb (has_id (id (newTask env d))) tbl); [exact C|].
    cbn [andb negb snd]. rewrite forallb_app, C. cbn [forallb].
    rewrite checked_check, P. reflexivity.
  - intros i v. rewrite updateTaskStatus_map. cbv zeta.
    destruct (existsb (has_id i) tbl); [|exact C].
    rewrite getTaskById_find. cbn [snd].
    rewrite forallb_forall in *. intros r Hr.
    apply in_map_iff in Hr. destruct Hr as [x [<- Hx]].
    specialize (C x Hx). destruct (has_id i x); [|exact C].
    rewrite checked_check in *. apply andb_true_iff in C. destruct C as [C _].
    cbn [set_field priority status]. rewrite C.
    destruct (truthy v); reflexivity.
  - intro i. rewrite deleteTask_filter.
    destruct (find (has_id i) tbl); [|exact C]. cbn [snd].
    rewrite forallb_forall in *. intros r Hr. apply filter_In in Hr.
    apply C, Hr.
Qed.

Lemma checks_kept_witness :
  forallb props.checked
    [mkTask "task_1_a" "Buy milk" "" "low" "pending" "2023-12-20T10:30:45.123Z"] = true
  /\ forallb props.checked
       (snd (updateTaskStatus "task_1_a" (JBool true)
               [mkTask "task_1_a" "Buy milk" "" "low" "pending" "2023-12-20T10:30:45.123Z"]))
     = true.
Proof.
  split; [reflexivity|].
  apply (checks_kept
           [mkTask "task_1_a" "Buy milk" "" "low" "pending" "2023-12-20T10:30:45.123Z"]
           eq_refl).
Defined.



(** ** Sanitization and what reaches the table *)

Lemma no_angle_strip (s : string) : props.no_angle (strip_angle s) = true.
Proof.
  induction s as [|c s IH]; [reflexivity|]. simpl.
  destruct ((c =? "<")%char || (c =? ">")%char) eqn:E; [exact IH|].
  unfold props.no_angle in *. simpl. rewrite E, IH. reflexivity.
Qed.

Lemma strip_angle_clean (s : string) :
  props.no_angle s = true -> strip_angle s = s.
Proof.
  unfold props.no_angle. induction s as [|c s IH]; [reflexivity|]. simpl.
  intro H. apply andb_true_iff in H. destruct H as [E H].
  apply negb_true_iff in E. rewrite E, (IH H). reflexivity.
Qed.

(** X13.  [sanitizeString] returns a string without "<" and ">", never
    longer than its argument; on a string that has none of the two it is
    [trim], and a value that is not a string comes back as it is. *)
Theorem sanitizeString_strips (v : jsval) :
  (forall s, v = JStr s ->
     exists s',
       sanitizeString v = JStr s'
       /\ props.no_angle s' = true
       /\ String.length s' <= String.length s
       /\ (props.no_angle s = true -> s' = trim s))
  /\ (is_string v = false -> sanitizeString v = v).
Proof.
  split.
  - intros s ->. exists (strip_angle (trim s)).
    split; [reflexivity|]. split; [apply no_angle_strip|]. split.
    + pose proof (strip_angle_length (trim s)). pose proof (trim_length_le s). lia.
    + intro H. apply strip_angle_clean.
      unfold props.no_angle, trim in *.
      assert (forall p x, forallb_string p x = true ->
                          forallb_string p (trimStart x) = true) as A.
      { intros p x. induction x as [|c x IH]; simpl; [auto|].
        intro Hx. apply andb_true_iff in Hx. destruct Hx as [Hc Hx].
        destruct (is_white c); [auto|]. simpl. rewrite Hc, Hx. reflexivity. }
      assert (forall p x, forallb_string p x = true ->
                          forallb_string p (trimEnd x) = true) as B.
      { intros p x. induction x as [|c x IH]; simpl; [auto|].
        intro Hx. apply andb_true_iff in Hx. destruct Hx as [Hc Hx].
        specialize (IH Hx). destruct (trimEnd x).
        - destruct (is_white c); [reflexivity|]. simpl. rewrite Hc. reflexivity.
        - simpl in *. rewrite Hc. exact IH. }
      apply B, A, H.
  - destruct v; try reflexivity. discriminate.
Qed.

(** What create validation hands on, field by field. *)
Lemma validated_taskData (body body' : CreateBody.t) :
  validateCreateTask body = Next body' ->
  exists s dsc pri,
    CreateBody.title body = JStr s
    /\ trim s <> "" /\ String.length (trim s) <= 200
    /\ taskController.taskData_of body'
       = Some (TaskData.mk (strip_angle (trim s)) dsc pri)
    /\ (dsc = None \/ dsc = Some ""
        \/ exists x, String.length x <= 1000 /\ dsc = Some (strip_angle (trim x)))
    /\ (pri = None \/ exists p, pri = Some p /\ In p VALID_PRIORITIES).
Proof.
  unfold validateCreateTask. rewrite createTask_errors_by_rule.
  destruct (rules.title_missing body) eqn:R1; [discriminate|].
  destruct (rules.title_too_long body) eqn:R2; [discriminate|].
  destruct (rules.description_not_string body) eqn:R3; [discriminate|].
  destruct (rules.description_too_long body) eqn:R4; [discriminate|].
  destruct (rules.priority_invalid body) eqn:R5; [discriminate|].
  cbn [app List.length Nat.ltb Nat.leb]. intro H. injection H as <-.
  destruct body as [t d p].
  unfold rules.title_missing, rules.title_too_long, rules.description_not_string,
    rules.description_too_long, rules.priority_invalid in *.
  cbn [CreateBody.title CreateBody.description CreateBody.priority] in *.
  destruct t as [| |b|n|s|l|l]; try discriminate R1.
  apply String.eqb_neq in R1. apply Nat.ltb_ge in R2.
  assert (exists pri, taskController.pass p = Some pri
            /\ (pri = None \/ exists q, pri = Some q /\ In q VALID_PRIORITIES))
    as [pri [Pp Hp]].
  { destruct p as [| |b|n|q|l|l]; try discriminate R5.
    - exists None. auto.
    - exists (Some q). split; [reflexivity|]. right. exists q. split; [reflexivity|].
      apply negb_false_iff in R5. apply In_eqb. exact R5. }
  assert (exists dsc,
            taskController.pass (if truthy d then sanitizeString d else d) = Some dsc
            /\ (dsc = None \/ dsc = Some ""
                \/ exists x, String.length x <= 1000
                             /\ dsc = Some (strip_angle (trim x))))
    as [dsc [Pd Hd]].
  { destruct d as [| |b|n|x|l|l]; try discriminate R3.
    - exists None. auto.
    - apply Nat.ltb_ge in R4. cbn [truthy sanitizeString].
      destruct (x =? "") eqn:X; cbn [negb taskController.pass].
      + apply String.eqb_eq in X. subst. exists (Some ""). auto.
      + exists (Some (strip_angle (trim x))). split; [reflexivity|].
        right. right. exists x. auto. }
  exists s, dsc, pri. split; [reflexivity|]. split; [exact R1|]. split; [exact R2|].
  split; [|auto].
  unfold taskController.taskData_of.
  cbn [CreateBody.title CreateBody.description CreateBody.priority sanitizeString].
  rewrite Pd, Pp. reflexivity.
Qed.

Lemma or_else_cases (o : option string) (d : string) :
  or_else o d = d \/ (o = Some (or_else o d) /\ or_else o d <> "").
Proof.
  unfold or_else, truthy_text. destruct o as [v|]; [|auto].
  destruct (v =? "") eqn:E; [auto|]. right. split; [reflexivity|].
  apply String.eqb_neq. exact E.
Qed.

(** X14.  Every body that passes create validation gives the controller
    task data, and the record [createTask] builds from them has a title
    and a description without angle brackets, of at most 200 and 1000
    characters, a priority of low, medium, high and the status
    pending. *)
Theorem accepted_task_is_sanitized (body body' : CreateBody.t) :
  validateCreateTask body = Next body' ->
  exists d,
    taskController.taskData_of body' = Some d
    /\ forall env,
         let t := newTask env d in
         props.no_angle t.(title) = true
         /\ props.no_angle t.(description) = true
         /\ String.length t.(title) <= 200
         /\ String.length t.(description) <= 1000
         /\ In t.(priority) VALID_PRIORITIES
         /\ t.(status) = "pending".
Proof.
  intro H. destruct (validated_taskData body body' H)
    as [s [dsc [pri [_ [_ [L [T [Hd Hp]]]]]]]].
  eexists. split; [exact T|]. intro env.
  cbn [newTask title description priority status TaskData.title
       TaskData.description TaskData.priority].
  split; [apply no_angle_strip|].
  assert (props.no_angle (or_else dsc "") = true
          /\ String.length (or_else dsc "") <= 1000) as [D1 D2].
  { destruct (or_else_cases dsc "") as [->|[E _]]; [split; [reflexivity|simpl; lia]|].
    destruct Hd as [->|[->|[x [Lx ->]]]]; [discriminate E|split; [reflexivity|simpl; lia]|].
    injection E as <-. split; [apply no_angle_strip|].
    pose proof (strip_angle_length (trim x)). pose proof (trim_length_le x). lia. }
  split; [exact D1|].
  split; [pose proof (strip_angle_length (trim s)); lia|].
  split; [exact D2|]. split; [|reflexivity].
  destruct (or_else_cases pri "medium") as [->|[E _]]; [simpl; auto|].
  destruct Hp as [->|[p [-> Hp]]]; [discriminate E|].
  injection E as <-. exact Hp.
Qed.

Lemma accepted_task_is_sanitized_witness :
  validateCreateTask (CreateBody.mk (JStr " <b>Buy milk</b> ") JUndefined (JStr "low"))
  = Next (CreateBody.mk (JStr "bBuy milk/b") JUndefined (JStr "low"))
  /\ exists d,
       taskController.taskData_of (CreateBody.mk (JStr "bBuy milk/b") JUndefined (JStr "low"))
       = Some d.
Proof.
  split; [reflexivity|].
  destruct (accepted_task_is_sanitized
              (CreateBody.mk (JStr " <b>Buy milk</b> ") JUndefined (JStr "low"))
              (CreateBody.mk (JStr "bBuy milk/b") JUndefined (JStr "low")) eq_refl)
    as [d [H _]].
  exists d. exact H.
Defined.

(** ** The routes: a validator and a controller together *)

Lemma violated_errors (body : CreateBody.t) :
  (rules.violated body = true -> createTask_errors body <> [])
  /\ (rules.violated body = false -> createTask_errors body = []).
Proof.
  rewrite createTask_errors_by_rule. unfold rules.violated.
  destruct (rules.title_missing body), (rules.title_too_long body),
    (rules.description_not_string body), (rules.description_too_long body),
    (rules.priority_invalid body); cbn [orb app];
    split; intro H; try discriminate H; try reflexivity; discriminate.
Qed.


(** X16.  The list route is defined on every query.  On a query that
    fails validation it answers 400 with the details, and storage is not
    asked.  On a query that passes, the filters go to [getAllTasks]; when
    that resolves, the answer is 200 with its tasks, which are the tasks
    that meet the filters, each once, their number as [count] and in the
    message, and the table is as before. *)
Theorem GET_tasks_outcomes (q : Query.t) (tbl : table) :
  exists handler,
    routes.GET_tasks q = Some handler
    /\ (query_errors q <> [] ->
        handler tbl
        = (Failure 400 "Validation Error" "Invalid query parameters" (query_errors q),
           tbl))
    /\ (query_errors q = [] ->
        exists f,
          taskController.filters_of q = Some f
          /\ forall l tbl',
               getAllTasks f tbl = (Ok l, tbl') ->
               handler tbl
               = (Success 200 (TaskList l)
                    ("Retrieved " ++ decimal (Z.of_nat (List.length l)) ++ " task(s)")
                    (Some (List.length l)), tbl')
               /\ tbl' = tbl
               /\ Permutation l
                    (filter (spec.selected (Filters.status f) (Filters.priority f)) tbl)).
Proof.
  unfold routes.GET_tasks, validateQueryParams.
  destruct (query_errors q) as [|e l] eqn:E.
  - cbn [List.length Nat.ltb Nat.leb].
    apply query_errors_nil in E. destruct E as [Es [Ep Eo]].
    apply copy_checked in Es, Ep, Eo.
    unfold taskController.getAllTasks, taskController.filters_of.
    assert (forall s, s <> "" -> spec.proper (Some s)) as Pr
      by (intros s Hs X; congruence).
    assert (spec.proper None) as Pn by (intro X; discriminate X).
    assert (exists st, taskController.copy_if_truthy (Query.status q) = Some st
                       /\ spec.proper st) as [st [-> Hst]].
    { destruct Es as [->|[s [-> [_ Hs]]]]; eexists; (split; [reflexivity|]);
        [exact Pn|exact (Pr s Hs)]. }
    assert (exists pr, taskController.copy_if_truthy (Query.priority q) = Some pr
                       /\ spec.proper pr) as [pr [-> Hpr]].
    { destruct Ep as [->|[s [-> [_ Hs]]]]; eexists; (split; [reflexivity|]);
        [exact Pn|exact (Pr s Hs)]. }
    assert (exists so, taskController.copy_if_truthy (Query.sortBy q) = Some so
                       /\ spec.recognized so) as [so [-> Hso]].
    { destruct Eo as [->|[s [-> [Hs _]]]]; eexists; (split; [reflexivity|]);
        [left; reflexivity|right; eauto]. }
    eexists. split; [reflexivity|].
    split; [intro X; elim X; reflexivity|].
    intros _. eexists. split; [reflexivity|].
    unfold taskController.try_catch.
    rewrite (getAllTasks_exec st pr so tbl Hst Hpr Hso).
    intros l' tbl' H. injection H as <- <-.
    split; [reflexivity|]. split; [reflexivity|].
    apply order_rows_perm.
  - eexists. split; [reflexivity|]. cbn [List.length Nat.ltb Nat.leb].
    split; [reflexivity|]. intro X. discriminate X.
Qed.

(** X17.  The routes on one id.  An id that does not match the pattern is
    answered 400 by both, before storage is asked; a valid id that is not
    stored 404, with the id in the details; a stored one 200 with the
    task: the fetch leaves the table, the deletion removes the row, and a
    fetch after the deletion answers 404. *)
Theorem id_routes_outcomes (i : string) (tbl : table) :
  let invalid :=
    Failure 400 "Validation Error" "Invalid task ID format"
      ["Task ID must be in the correct format"] in
  let missing :=
    Failure 404 "Not Found" "Task not found"
      ["Task with ID " ++ i ++ " does not exist"] in
  (isValidId (JStr i) = false ->
   routes.GET_task i tbl = (invalid, tbl) /\ routes.DELETE_task i tbl = (invalid, tbl))
  /\ (isValidId (JStr i) = true ->
      (forall t, In t tbl -> t.(id) <> i) ->
      routes.GET_task i tbl = (missing, tbl) /\ routes.DELETE_task i tbl = (missing, tbl))
  /\ (isValidId (JStr i) = true ->
      unique_ids tbl = true ->
      forall t, In t tbl -> t.(id) = i ->
        let tbl' := filter (fun r => negb (has_id i r)) tbl in
        routes.GET_task i tbl
        = (Success 200 (OneTask t) "Task retrieved successfully" None, tbl)
        /\ routes.DELETE_task i tbl
           = (Success 200 (OneTask t) "Task deleted successfully" None, tbl')
        /\ routes.GET_task i tbl' = (missing, tbl')).
Proof.
  intros invalid missing.
  unfold routes.GET_task, routes.DELETE_task, validateTaskId,
    taskController.getTaskById, taskController.deleteTask, taskController.try_catch.
  split; [|split].
  - intros ->. split; reflexivity.
  - intros -> A. apply absent_existsb in A. cbn [negb].
    rewrite getTaskById_find, deleteTask_filter, (find_none_existsb _ _ A).
    split; reflexivity.
  - intros -> U t Hin E. cbn [negb].
    pose proof (find_stored tbl t U Hin) as F. rewrite E in F.
    rewrite !getTaskById_find, deleteTask_filter, F, find_after_delete.
    repeat split; reflexivity.
Qed.

Lemma id_routes_outcomes_witness :
  isValidId (JStr "task_1_a") = true
  /\ unique_ids [mkTask "task_1_a" "Buy milk" "" "low" "completed" "2023-12-20T10:30:45.123Z"] = true
  /\ routes.DELETE_task "task_1_a"
       [mkTask "task_1_a" "Buy milk" "" "low" "completed" "2023-12-20T10:30:45.123Z"]
     = (Success 200
          (OneTask (mkTask "task_1_a" "Buy milk" "" "low" "completed"
                      "2023-12-20T10:30:45.123Z"))
          "Task deleted successfully" None, []).
Proof.
  split; [reflexivity|]. split; [reflexivity|].
  apply (id_routes_outcomes "task_1_a"
           [mkTask "task_1_a" "Buy milk" "" "low" "completed" "2023-12-20T10:30:45.123Z"]);
    [reflexivity|reflexivity|left; reflexivity|reflexivity].
Defined.

Lemma validate_named_status (id status : jsval) (b : bool) :
  isValidId id = true -> props.names_status status b ->
  validateUpdateTaskStatus id status = Next (JBool b).
Proof.
  unfold validateUpdateTaskStatus, updateTaskStatus_checks, props.names_status.
  intros -> [->|[[-> ->]|[-> ->]]]; reflexivity.
Qed.

(** X18.  The status route on a valid id, with the status given as a
    boolean or by its name: the name "pending" sets the status pending and
    "completed" sets it completed, as [false] and [true] do.  A stored task
    is answered 200 with the updated record, nothing else of the table
    changing; an id that is not stored 404 with the table untouched. *)
Theorem PUT_task_status_outcomes (i : string) (status : jsval) (b : bool) (tbl : table) :
  isValidId (JStr i) = true ->
  props.names_status status b ->
  ((forall t, In t tbl -> t.(id) <> i) ->
   routes.PUT_task_status i status tbl
   = (Failure 404 "Not Found" "Task not found"
        ["Task with ID " ++ i ++ " does not exist"], tbl))
  /\ (unique_ids tbl = true ->
      forall t, In t tbl -> t.(id) = i ->
        let t' := props.with_status t (if b then "completed" else "pending") in
        routes.PUT_task_status i status tbl
        = (Success 200 (OneTask t') "Task status updated successfully" None,
           map (fun r => if has_id i r then t' else r) tbl)).
Proof.
  intros V N. unfold routes.PUT_task_status.
  rewrite (validate_named_status (JStr i) status b V N).
  unfold taskController.updateTaskStatus, taskController.try_catch.
  split.
  - intro A. apply absent_existsb in A.
    rewrite (updateTaskStatus_absent tbl i (JBool b) A). reflexivity.
  - intros U t Hin E.
    pose proof (updateTaskStatus_stored tbl t (JBool b) U Hin) as S.
    rewrite E in S. cbv zeta in S. rewrite S. reflexivity.
Qed.

Lemma PUT_task_status_outcomes_witness :
  isValidId (JStr "task_1_a") = true
  /\ props.names_status (JStr "pending") false
  /\ routes.PUT_task_status "task_1_a" (JStr "pending")
       [mkTask "task_1_a" "Buy milk" "" "low" "completed" "2023-12-20T10:30:45.123Z"]
     = (Success 200
          (OneTask (mkTask "task_1_a" "Buy milk" "" "low" "pending"
                      "2023-12-20T10:30:45.123Z"))
          "Task status updated successfully" None,
        [mkTask "task_1_a" "Buy milk" "" "low" "pending" "2023-12-20T10:30:45.123Z"]).
Proof.
  assert (props.names_status (JStr "pending") false) as N
    by (right; right; split; reflexivity).
  split; [reflexivity|]. split; [exact N|].
  destruct (PUT_task_status_outcomes "task_1_a" (JStr "pending") false
              [mkTask "task_1_a" "Buy milk" "" "low" "completed" "2023-12-20T10:30:45.123Z"]
              eq_refl N) as [_ H].
  exact (H eq_refl _ (or_introl eq_refl) eq_refl).
Defined.

(** ** Ids and clocks *)

Lemma append_inj_l (p a b : string) : p ++ a = p ++ b -> a = b.
Proof.
  induction p as [|c p IH]; simpl; [auto|].
  intro H. injection H as H. auto.
Qed.

Lemma decimal_inj (a b : Z) : decimal a = decimal b -> a = b.
Proof.
  unfold decimal. intro H.
  assert (forall z, Z.to_int z <> Decimal.Pos Decimal.Nil
                    /\ Z.to_int z <> Decimal.Neg Decimal.Nil) as NN.
  { intros [|p|p]; simpl; split; try discriminate;
      intro X; injection X as X; exact (Unsigned.to_uint_nonnil p X). }
  apply DecimalZ.to_int_inj.
  assert (Some (Z.to_int a) = Some (Z.to_int b)) as E.
  { rewrite <- (NilZero.isi (Z.to_int a)) by apply NN.
    rewrite <- (NilZero.isi (Z.to_int b)) by apply NN.
    rewrite H. reflexivity. }
  injection E as E. exact E.
Qed.

(** X19.  Ids generated at different clock readings are different, and so
    are ids with different random suffixes: the id determines the
    millisecond and the suffix it was made from. *)
Theorem generateId_determines_clock (now now' : Z) (random random' : string) :
  (0 <= now)%Z -> (0 <= now')%Z ->
  generateId now random = generateId now' random' ->
  now = now'
  /\ substr 2 9 random = substr 2 9 random'.
Proof.
  intros Ha Hb H. unfold generateId in H.
  apply append_inj_l in H.
  destruct (decimal_digits now Ha) as [Da _].
  destruct (decimal_digits now' Hb) as [Db _].
  apply (f_equal (span is_digit)) in H.
  change (decimal now ++ "_" ++ substr 2 9 random)
    with (decimal now ++ String "_" (substr 2 9 random)) in H.
  change (decimal now' ++ "_" ++ substr 2 9 random')
    with (decimal now' ++ String "_" (substr 2 9 random')) in H.
  rewrite (span_digits _ _ Da), (span_digits _ _ Db) in H.
  injection H as H1 H2. split; [apply decimal_inj; exact H1|exact H2].
Qed.

Lemma generateId_determines_clock_witness :
  (0 <= 1703123456789)%Z
  /\ substr 2 9 "0.i" = substr 2 9 "0.i".
Proof.
  split; [lia|].
  apply (generateId_determines_clock 1703123456789 1703123456789 "0.i" "0.i");
    [lia|lia|reflexivity].
Defined.

(** ** The WHERE clause *)

(** X20.  For any filters, validated or not, [buildWhereClause] returns
    one of four fixed texts and binds the values of the truthy filters,
    status first: the text holds one place holder for each bound value and
    no value. *)
Theorem buildWhereClause_binds_every_value (f : Filters.t) :
  let w := buildWhereClause f in
  In (whereClause w) sql.WHERE_CLAUSES
  /\ params w = sql.bound_values f
  /\ count_occ string_dec (tokens (whereClause w)) "?" = List.length (params w).
Proof.
  destruct f as [st pr so].
  unfold buildWhereClause, sql.bound_values.
  cbn [Filters.status Filters.priority].
  destruct (truthy_text st) as [s|], (truthy_text pr) as [p|];
    cbn [app whereClause params List.length Nat.ltb Nat.leb];
    (split; [apply In_eqb; reflexivity|]); split; reflexivity.
Qed.

(** ** The global error handler *)

(** X21.  [errorHandler] answers every error with an error envelope of
    status 400, 404 or 500, and 404 exactly when the message is "Task not
    found".  For an error made with [new Error], as all errors of the
    storage layer are, the status is 404 or 500, and the message of the
    error is repeated in the details only when it is "Task not found": what
    the store reports stays on the server. *)
Theorem errorHandler_outcomes (err : Error) :
  exists code error message details,
    errorHandler.errorHandler err = Failure code error message details
    /\ (code = 400 \/ code = 404 \/ code = 500)
    /\ (code = 404 <-> err.(Model.message) = "Task not found")
    /\ (err.(name) = "Error" ->
        code <> 400
        /\ (In err.(Model.message) details -> err.(Model.message) = "Task not found")).
Proof.
  unfold errorHandler.errorHandler.
  destruct (String.eqb_spec err.(Model.message) "Task not found") as [M|M].
  - do 4 eexists. split; [reflexivity|]. split; [auto|]. split; [tauto|].
    intros _. split; [discriminate|auto].
  - destruct (str_includes "Failed to load tasks" err.(Model.message)
              || str_includes "Failed to save tasks" err.(Model.message)) eqn:S.
    + do 4 eexists. split; [reflexivity|]. split; [auto|].
      split; [split; [discriminate|intro X; elim (M X)]|].
      intros _. split; [discriminate|].
      intros [X|[]]. rewrite <- X in S. discriminate S.
    + destruct (String.eqb_spec err.(name) "ValidationError") as [N|N].
      * do 4 eexists. split; [reflexivity|]. split; [auto|].
        split; [split; [discriminate|intro X; elim (M X)]|].
        intro X. rewrite X in N. discriminate N.
      * destruct ((name err =? "SyntaxError")
                  && str_includes "JSON" err.(Model.message)) eqn:J.
        -- do 4 eexists. split; [reflexivity|]. split; [auto|].
           split; [split; [discriminate|intro X; elim (M X)]|].
           intro X. rewrite X in J. discriminate J.
        -- do 4 eexists. split; [reflexivity|]. split; [auto|].
           split; [split; [discriminate|intro X; elim (M X)]|].
           intros _. split; [discriminate|]. intros [].
Qed.
